(** * Balance-gated request fulfilment: the ledger and the request handler

    A shallow embedding of [src/config.py], [src/database.py] and [src/bot.py].

    - Python [int] and SQLite INTEGER values are [Z].  SQLite computes exactly
      on the signed 64-bit range, and sqlite3 binds a Python [int] only within
      it.  The definitions compute on [Z]; a theorem about arbitrary amounts
      carries that range as hypotheses ([binds], [sums_exact], [stored],
      [exact]).
    - Python [str] is a list of Unicode code points.
    - The [users] table is a list of rows, in insertion order; the PRIMARY KEY
      constraint is what [INSERT OR IGNORE] checks, it is not built into the
      type.  The [payments] table is created by [_init_schema] and never
      touched afterwards, so it is left out.
    - A Python exception is a value of [exn]; code that may raise returns
      [exn + A] next to the state it leaves behind. *)

From Stdlib Require Import String Ascii ZArith List Bool Lia.
Import ListNotations.
Open Scope Z_scope.

(** ** Python values *)

Module Py.

Definition str := list N.

(** An ASCII literal as a [str]. *)
Definition lit (s : string) : str := map N_of_ascii (list_ascii_of_string s).

(** [str.isspace] on one code point: the code points CPython's
    [_PyUnicode_IsWhitespace] accepts. *)
Definition isspace (c : N) : bool :=
  (((9 <=? c) && (c <=? 13)) || ((28 <=? c) && (c <=? 32))
   || (c =? 133) || (c =? 160) || (c =? 5760)
   || ((8192 <=? c) && (c <=? 8202))
   || (c =? 8232) || (c =? 8233) || (c =? 8239) || (c =? 8287)
   || (c =? 12288))%N.

Fixpoint lstrip (s : str) : str :=
  match s with
  | [] => []
  | c :: s' => if isspace c then lstrip s' else s
  end.

Definition rstrip (s : str) : str := rev (lstrip (rev s)).

(** [s.strip()] *)
Definition strip (s : str) : str := rstrip (lstrip s).

(** Truth value of a [str]: non-empty. *)
Definition truthy (s : str) : bool :=
  match s with [] => false | _ :: _ => true end.

(** The exceptions the two modules raise, catch or let through. *)
Inductive exn :=
| DatabaseError (msg : string)            (* database.DatabaseError *)
| OpenAIError (msg : string)              (* bot.OpenAIError *)
| AuthenticationError (msg : string)      (* openai.error.AuthenticationError *)
| RateLimitError (msg : string)           (* openai.error.RateLimitError *)
| LibOpenAIError (msg : string)           (* any other openai.error.OpenAIError *)
| OtherException (msg : string)           (* any other Exception *)
| UnboundLocalError (name : string).      (* read of a local not yet assigned *)

Definition result (A : Type) : Type := (exn + A)%type.

End Py.

(** ** config.py *)

Module config.

(** [BotConfig.default_free_requests] *)
Definition default_free_requests : Z := 3.

(** The process environment once [load_dotenv] has run: a variable is set
    to a text or is not set. *)
Definition environ := string -> option string.

(** [os.getenv(name)] *)
Definition getenv (env : environ) (name : string) : option string := env name.

(** [os.getenv(name, default)] *)
Definition getenv_default (env : environ) (name default : string) : string :=
  match env name with Some v => v | None => default end.

(** The attributes [_load_environment_variables] sets. *)
Record Settings := mkSettings {
  bot_token : option string;
  openai_api_key : option string;
  admin_id : Z
}.

(** [Config._load_environment_variables].  [int] is Python's [int] on a
    text, [None] where it raises ValueError; the argument is never [None],
    so TypeError does not arise. *)
Definition _load_environment_variables (int : string -> option Z) (env : environ)
  : Settings :=
  mkSettings (getenv env "BOT_TOKEN") (getenv env "OPENAI_API_KEY")
             (match int (getenv_default env "ADMIN_ID" "0") with
              | Some n => n
              | None => 0
              end).

(** Truth value of an attribute that holds a text or [None]. *)
Definition is_set (v : option string) : bool :=
  match v with
  | Some (String _ _) => true
  | Some EmptyString | None => false
  end.

(** The list [_validate_required_settings] builds, in its order. *)
Definition missing_vars (s : Settings) : list string :=
  (if is_set (bot_token s) then [] else ["BOT_TOKEN"%string])
  ++ (if is_set (openai_api_key s) then [] else ["OPENAI_API_KEY"%string])
  ++ (if admin_id s =? 0 then ["ADMIN_ID"%string] else []).

(** [Config._validate_required_settings]: the text of the ValueError, or
    nothing. *)
Definition _validate_required_settings (s : Settings) : string + unit :=
  match missing_vars s with
  | [] => inr tt
  | _ :: _ =>
      inl ("Missing required environment variables: "
           ++ String.concat ", " (missing_vars s))%string
  end.

(** [Config()]: the settings of the constructed object, or the text of the
    ValueError that [__init__] lets through. *)
Definition Config (int : string -> option Z) (env : environ) : string + Settings :=
  let s := _load_environment_variables int env in
  match _validate_required_settings s with
  | inl msg => inl msg
  | inr _ => inr s
  end.

End config.

(** ** database.py *)

Module database.
Import Py.

(** One row of [users]. *)
Record UserRow := mkUser {
  tg_id : Z;
  username : option str;
  first_name : option str;
  last_name : option str;
  balance : Z;
  total_requests : Z;
  created_at : Z;
  updated_at : Z
}.

Definition users_table := list UserRow.

(** What the SQLite connection does during one [with get_cursor()] block:
    whether it fails, and what CURRENT_TIMESTAMP reads. *)
Inductive sqlite_fault :=
| ConnectFailed (e : string)      (* sqlite3.connect raised *)
| OperationFailed (e : string).   (* execute or commit raised *)

Record Conn := mkConn {
  fault : option sqlite_fault;
  current_timestamp : Z
}.

(** A ledger operation: from the committed table to the committed table
    after it, with the value returned or the exception raised. *)
Definition ledger (A : Type) : Type := users_table -> users_table * result A.

(** [DatabaseConnection.get_cursor]: the block runs in one transaction.  An
    [sqlite3.Error] rolls it back, so the table is as before, and is
    re-raised as [DatabaseError]; otherwise the block's writes are
    committed.  Any other exception from the block passes through. *)
Definition get_cursor {A} (c : Conn) (body : ledger A) : ledger A :=
  fun tbl =>
    match fault c with
    | Some (ConnectFailed e) => (tbl, inl (DatabaseError ("Connection failed: " ++ e)%string))
    | Some (OperationFailed e) => (tbl, inl (DatabaseError ("Operation failed: " ++ e)%string))
    | None => body tbl
    end.

(** [SELECT * FROM users WHERE tg_id = ?] then [fetchone()]. *)
Definition select_user (tg : Z) (tbl : users_table) : option UserRow :=
  find (fun r => tg_id r =? tg) tbl.

(** [UserRepository.get_user] *)
Definition get_user (c : Conn) (tg : Z) : ledger (option UserRow) :=
  get_cursor c (fun tbl => (tbl, inr (select_user tg tbl))).

(** The keyword arguments of [create_user]. *)
Record user_data := mkData {
  d_username : option str;
  d_first_name : option str;
  d_last_name : option str
}.

Definition no_data : user_data := mkData None None None.

(** [INSERT OR IGNORE INTO users (tg_id, username, first_name, last_name,
    balance) VALUES (...)]: a row whose key is taken is dropped. *)
Definition insert_or_ignore (now : Z) (tg : Z) (d : user_data) (tbl : users_table)
  : users_table :=
  if existsb (fun r => tg_id r =? tg) tbl then tbl
  else tbl ++ [mkUser tg (d_username d) (d_first_name d) (d_last_name d)
                      config.default_free_requests 0 now now].

(** [UserRepository.create_user] *)
Definition create_user (c : Conn) (tg : Z) (d : user_data) : ledger UserRow :=
  get_cursor c (fun tbl =>
    let tbl' := insert_or_ignore (current_timestamp c) tg d tbl in
    match select_user tg tbl' with
    | None => (tbl', inl (DatabaseError "Failed to create user"%string))
    | Some r => (tbl', inr r)
    end).

(** The WHERE clause of the UPDATE: [tg_id = ? AND balance + ? >= 0]. *)
Definition update_where (tg delta : Z) (r : UserRow) : bool :=
  (tg_id r =? tg) && (0 <=? balance r + delta).

(** The SET clause, with the second parameter [-delta if delta < 0 else 0]. *)
Definition update_set (now delta : Z) (r : UserRow) : UserRow :=
  mkUser (tg_id r) (username r) (first_name r) (last_name r)
         (balance r + delta)
         (total_requests r + Z.abs (if delta <? 0 then - delta else 0))
         (created_at r) now.

Definition update_row (now tg delta : Z) (r : UserRow) : UserRow :=
  if update_where tg delta r then update_set now delta r else r.

(** [UserRepository.update_balance]: [cursor.rowcount > 0].  This is what the
    code does where sqlite3 can bind the parameters and the sums of the
    written rows stay INTEGER ([binds], [sums_exact] below); outside, the
    code raises OverflowError at binding or SQLite stores a rounded REAL. *)
Definition update_balance (c : Conn) (tg delta : Z) : ledger bool :=
  get_cursor c (fun tbl =>
    let rowcount := Z.of_nat (length (filter (update_where tg delta) tbl)) in
    (map (update_row (current_timestamp c) tg delta) tbl, inr (0 <? rowcount))).

(** [DatabaseManager.get_or_create_user].  The two repository calls are two
    transactions; [between] is what other connections commit after the
    first and before the second. *)
Definition get_or_create_user (c1 c2 : Conn) (between : users_table -> users_table)
           (tg : Z) (d : user_data) : ledger UserRow :=
  fun tbl =>
    match get_user c1 tg tbl with
    | (tbl1, inl e) => (tbl1, inl e)
    | (tbl1, inr (Some user)) => (tbl1, inr user)
    | (tbl1, inr None) => create_user c2 tg d (between tbl1)
    end.

(** [DatabaseManager.ensure_sufficient_balance] *)
Definition ensure_sufficient_balance (c : Conn) (tg : Z) (cost : Z) : ledger bool :=
  update_balance c tg (- cost).

(** *** Concurrent callers of [get_or_create_user]

    A caller is between its two transactions or outside them; a schedule
    picks which caller runs its next transaction, on which connection. *)
Inductive Caller :=
| Pending (d : user_data)        (* before get_user *)
| Missed (d : user_data)         (* get_user returned None *)
| Finished (user : UserRow)      (* returned user *)
| Failed (e : exn).              (* raised e *)

Definition caller_step (c : Conn) (tg : Z) (st : Caller) (tbl : users_table)
  : users_table * Caller :=
  match st with
  | Pending d =>
      match get_user c tg tbl with
      | (tbl', inl e) => (tbl', Failed e)
      | (tbl', inr (Some user)) => (tbl', Finished user)
      | (tbl', inr None) => (tbl', Missed d)
      end
  | Missed d =>
      match create_user c tg d tbl with
      | (tbl', inl e) => (tbl', Failed e)
      | (tbl', inr user) => (tbl', Finished user)
      end
  | Finished _ | Failed _ => (tbl, st)
  end.




(** *** A sequence of balance adjustments *)

Record Adjustment := mkAdj { a_conn : Conn; a_tg : Z; a_delta : Z }.

Definition apply_adjustment (tbl : users_table) (a : Adjustment) : users_table :=
  fst (update_balance (a_conn a) (a_tg a) (a_delta a) tbl).

Definition apply_adjustments (adjs : list Adjustment) (tbl : users_table)
  : users_table :=
  fold_left apply_adjustment adjs tbl.

(** Table predicates used by the statements. *)
Definition rows_of (tg : Z) (tbl : users_table) : users_table :=
  filter (fun r => tg_id r =? tg) tbl.

Definition others_of (tg : Z) (tbl : users_table) : users_table :=
  filter (fun r => negb (tg_id r =? tg)) tbl.

Definition non_negative (tbl : users_table) : Prop :=
  Forall (fun r => 0 <= balance r) tbl.

(** The PRIMARY KEY constraint on [tg_id]. *)
Definition primary_key (tbl : users_table) : Prop := NoDup (map tg_id tbl).

Definition healthy (c : Conn) : Prop := fault c = None.


(** *** Any sequence of repository calls *)

Inductive RepositoryCall :=
| GetUser (c : Conn) (tg : Z)
| CreateUser (c : Conn) (tg : Z) (d : user_data)
| UpdateBalance (c : Conn) (tg delta : Z).

(** The table a call leaves. *)
Definition after_call (tbl : users_table) (k : RepositoryCall) : users_table :=
  match k with
  | GetUser c tg => fst (get_user c tg tbl)
  | CreateUser c tg d => fst (create_user c tg d tbl)
  | UpdateBalance c tg delta => fst (update_balance c tg delta tbl)
  end.

Definition after_calls (ks : list RepositoryCall) (tbl : users_table) : users_table :=
  fold_left after_call ks tbl.

(** Balances and request counts are non-negative. *)
Definition counted (tbl : users_table) : Prop :=
  Forall (fun r => 0 <= balance r /\ 0 <= total_requests r) tbl.

(** What [update_balance] never writes in a row. *)
Definition same_account (r r' : UserRow) : Prop :=
  tg_id r' = tg_id r /\ username r' = username r /\ first_name r' = first_name r
  /\ last_name r' = last_name r /\ created_at r' = created_at r.

(** *** The range in which the arithmetic is SQLite's *)

(** A signed 64-bit value: what an INTEGER column holds and what sqlite3
    accepts as a parameter. *)
Definition int64 (z : Z) : Prop := - 2 ^ 63 <= z <= 2 ^ 63 - 1.

(** sqlite3 can bind the parameters of the UPDATE:
    [(delta, -delta if delta < 0 else 0, tg_id, delta)]. *)
Definition binds (tg delta : Z) : Prop :=
  int64 tg /\ int64 delta /\ int64 (if delta <? 0 then - delta else 0).

(** The sums the UPDATE writes are INTEGER: for every row it would write,
    [balance + ?] and [total_requests + ABS(?)] fit. *)
Definition sums_exact (tg delta : Z) (tbl : users_table) : Prop :=
  forall r, In r tbl -> tg_id r = tg -> 0 <= balance r + delta ->
    int64 (balance r + delta)
    /\ int64 (total_requests r + Z.abs (if delta <? 0 then - delta else 0)).

(** Every key, balance and request count of the table is an INTEGER. *)
Definition stored (tbl : users_table) : Prop :=
  Forall (fun r => int64 (tg_id r) /\ int64 (balance r) /\ int64 (total_requests r)) tbl.

(** A sequence of adjustments every one of which is bound and exact on the
    table it is applied to. *)
Fixpoint exact (adjs : list Adjustment) (tbl : users_table) : Prop :=
  match adjs with
  | [] => True
  | a :: rest =>
      binds (a_tg a) (a_delta a)
      /\ sums_exact (a_tg a) (a_delta a) tbl
      /\ exact rest (apply_adjustment tbl a)
  end.

(** The same for repository calls: every tg_id is bound, and every UPDATE
    is bound and exact. *)
Definition call_exact (k : RepositoryCall) (tbl : users_table) : Prop :=
  match k with
  | GetUser _ tg => int64 tg
  | CreateUser _ tg _ => int64 tg
  | UpdateBalance _ tg delta => binds tg delta /\ sums_exact tg delta tbl
  end.

Fixpoint calls_exact (ks : list RepositoryCall) (tbl : users_table) : Prop :=
  match ks with
  | [] => True
  | k :: rest => call_exact k tbl /\ calls_exact rest (after_call tbl k)
  end.

(** Two rows that agree on every column but [updated_at]. *)
Definition same_but_stamp (r r' : UserRow) : Prop :=
  tg_id r' = tg_id r /\ username r' = username r /\ first_name r' = first_name r
  /\ last_name r' = last_name r /\ balance r' = balance r
  /\ total_requests r' = total_requests r /\ created_at r' = created_at r.

End database.

(** ** bot.py *)

Module bot.
Import Py database.
Local Open Scope string_scope.
Local Open Scope Z_scope.

(** *** OpenAIService *)

(** What [openai.ChatCompletion.create] does on one call: it returns a
    response, of which the code reads [choices] and each choice's
    [message.content] ([None] when the content is absent), or it raises. *)
Inductive provider_call :=
| Responds (choices : list (option str))
| Raises (e : exn).

(** The [try] block of [generate_response]. *)
Definition generate_response_body (p : provider_call) : result str :=
  match p with
  | Raises e => inl e
  | Responds [] => inl (OpenAIError "Empty response from OpenAI")
  | Responds (None :: _) => inl (OtherException "AttributeError")
  | Responds (Some content :: _) => inr (strip content)
  end.

(** The [except] clauses of [generate_response], in source order:
    AuthenticationError, RateLimitError, openai.error.OpenAIError,
    Exception.  [bot.OpenAIError] derives from [Exception] only. *)
Definition generate_response_except (e : exn) : exn :=
  match e with
  | AuthenticationError _ => OpenAIError "Invalid API key configuration"
  | RateLimitError _ => OpenAIError "Service temporarily unavailable due to high load"
  | LibOpenAIError _ => OpenAIError "AI service is currently unavailable"
  | DatabaseError _ | OpenAIError _ | OtherException _ | UnboundLocalError _ =>
      OpenAIError "Internal service error"
  end.

(** [OpenAIService.generate_response] *)
Definition generate_response (openai_create : str -> Z -> provider_call)
           (prompt : str) (max_tokens : Z) : result str :=
  match generate_response_body (openai_create prompt max_tokens) with
  | inr text => inr text
  | inl e => inl (generate_response_except e)
  end.

(** *** MessageHandler *)

Record Message := mkMessage {
  chat_id : Z;
  from_user_id : Z;
  text : str
}.

(** The texts the handler sends, by the place that builds them. *)
Inductive Reply :=
| EmptyMessage                                       (* line 106 *)
| BalanceWarning (balance : Z)                       (* _send_balance_warning *)
| Processing                                         (* line 117 *)
| ResponseText (response : str) (remaining_balance : Z) (* _build_response_text *)
| GatewayError (msg : string)                        (* line 135: the exception's text *)
| ProcessingError.                                   (* line 143 *)

(** The calls the handler makes on its collaborators, oldest first. *)
Inductive Event :=
| SendMessage (chat : Z) (r : Reply)
| EditMessageText (r : Reply) (chat : Z) (message_id : Z)
| GetOrCreateUser (tg : Z)
| GenerateResponse (prompt : str)
| EnsureSufficientBalance (tg : Z).

(** What surrounds one run of the handler. *)
Record Env := mkEnv {
  conn_get : Conn;          (* the connection during get_user *)
  conn_create : Conn;       (* ... during create_user *)
  conn_update : Conn;       (* ... during update_balance *)
  before_create : users_table -> users_table;
    (* committed by other requests between get_user and create_user *)
  while_generating : users_table -> users_table;
    (* committed by other requests while the provider call is pending *)
  openai_create : str -> Z -> provider_call;
  sent_message_id : Z       (* message_id of the message send_message returns *)
}.

(** The state a run threads: the table, the calls made so far and the
    local [processing_msg], unbound until line 115 assigns it. *)
Record Frame := mkFrame {
  users : users_table;
  calls : list Event;
  processing_msg : option Z
}.

Definition M (A : Type) : Type := Frame -> Frame * result A.

Definition ret {A} (a : A) : M A := fun f => (f, inr a).

Definition raise {A} (e : exn) : M A := fun f => (f, inl e).

Definition bind {A B} (m : M A) (k : A -> M B) : M B :=
  fun f => match m f with
           | (f', inr a) => k a f'
           | (f', inl e) => (f', inl e)
           end.

Notation "x <- m ;; k" := (bind m (fun x => k))
  (at level 61, m at next level, right associativity).
Notation "m ;; k" := (bind m (fun _ => k))
  (at level 61, right associativity).

(** [try: body except ...: handler]; a handler re-raises what no clause
    matches. *)
Definition try_except {A} (body : M A) (handler : exn -> M A) : M A :=
  fun f => match body f with
           | (f', inl e) => handler e f'
           | (f', inr a) => (f', inr a)
           end.

Definition record (e : Event) : M unit :=
  fun f => (mkFrame (users f) (calls f ++ [e]) (processing_msg f), inr tt).

(** Runs a ledger operation on the table. *)
Definition on_ledger {A} (op : ledger A) : M A :=
  fun f => let (tbl, r) := op (users f) in
           (mkFrame tbl (calls f) (processing_msg f), r).

(** [self.bot.send_message]; returns the new message's id.  Here the chat
    transport delivers every call; [send_message_via] and
    [handle_text_message_via] below are the same code with a transport that
    may raise. *)
Definition send_message (env : Env) (chat : Z) (r : Reply) : M Z :=
  record (SendMessage chat r) ;; ret (sent_message_id env).

(** [self.bot.edit_message_text] *)
Definition edit_message_text (r : Reply) (chat message_id : Z) : M unit :=
  record (EditMessageText r chat message_id).

Definition assign_processing_msg (id : Z) : M unit :=
  fun f => (mkFrame (users f) (calls f) (Some id), inr tt).

(** Reading the local [processing_msg]. *)
Definition read_processing_msg : M Z :=
  fun f => match processing_msg f with
           | Some id => (f, inr id)
           | None => (f, inl (UnboundLocalError "processing_msg"))
           end.

(** [db_manager.get_or_create_user(user_id)] *)
Definition call_get_or_create_user (env : Env) (tg : Z) : M UserRow :=
  record (GetOrCreateUser tg) ;;
  on_ledger (get_or_create_user (conn_get env) (conn_create env)
                                (before_create env) tg no_data).

(** [self.openai_service.generate_response(user_text)]; other requests
    commit while the call is pending. *)
Definition call_generate_response (env : Env) (prompt : str) : M str :=
  record (GenerateResponse prompt) ;;
  (fun f => (mkFrame (while_generating env (users f)) (calls f) (processing_msg f),
             generate_response (openai_create env) prompt 1000)).

(** [db_manager.ensure_sufficient_balance(user_id)] *)
Definition call_ensure_sufficient_balance (env : Env) (tg : Z) : M bool :=
  record (EnsureSufficientBalance tg) ;;
  on_ledger (ensure_sufficient_balance (conn_update env) tg 1).

(** [MessageHandler._send_balance_warning] *)
Definition _send_balance_warning (env : Env) (chat : Z) (balance : Z) : M unit :=
  send_message env chat (BalanceWarning balance) ;; ret tt.

(** [MessageHandler._build_response_text] *)
Definition _build_response_text (response : str) (remaining_balance : Z) : Reply :=
  ResponseText response remaining_balance.

(** [MessageHandler.handle_text_message] *)
Definition handle_text_message (env : Env) (message : Message) : M unit :=
  let user_id := from_user_id message in
  let user_text := strip (text message) in
  if negb (truthy user_text) then
    send_message env (chat_id message) EmptyMessage ;; ret tt
  else
    try_except
      (user <- call_get_or_create_user env user_id ;;
       if balance user <=? 0 then
         _send_balance_warning env (chat_id message) (balance user)
       else
         sent <- send_message env (chat_id message) Processing ;;
         assign_processing_msg sent ;;
         response <- call_generate_response env user_text ;;
         debited <- call_ensure_sufficient_balance env user_id ;;
         if debited then
           let final_text := _build_response_text response (balance user - 1) in
           id <- read_processing_msg ;;
           edit_message_text final_text (chat_id message) id
         else
           raise (DatabaseError "Failed to deduct balance"))
      (fun e =>
         match e with
         | OpenAIError msg =>
             id <- read_processing_msg ;;
             edit_message_text (GatewayError msg) (chat_id message) id
         | DatabaseError _ =>
             id <- read_processing_msg ;;
             edit_message_text ProcessingError (chat_id message) id
         | _ => raise e
         end).

(** One request against a table: the frame it ends in and how it ends. *)
Definition run (env : Env) (tbl : users_table) (message : Message)
  : Frame * result unit :=
  handle_text_message env message (mkFrame tbl [] None).

(** The three calls of a run, each on the table it finds: line 110, line
    120 and line 122. *)
Definition resolve (env : Env) (tbl : users_table) (message : Message)
  : users_table * result UserRow :=
  get_or_create_user (conn_get env) (conn_create env) (before_create env)
                     (from_user_id message) no_data tbl.

Definition complete (env : Env) (message : Message) : result str :=
  generate_response (openai_create env) (strip (text message)) 1000.

Definition debit (env : Env) (message : Message) (tbl1 : users_table)
  : users_table * result bool :=
  ensure_sufficient_balance (conn_update env) (from_user_id message) 1
                            (while_generating env tbl1).

(** *** Reading a run as the specification does *)

(** The failure classes, by the five texts [generate_response] raises. *)
Inductive Reason :=
| AuthFailure | RateLimited | ProviderUnavailable | EmptyResponse | Unknown.

Definition classify (msg : string) : Reason :=
  if String.eqb msg "Invalid API key configuration" then AuthFailure
  else if String.eqb msg "Service temporarily unavailable due to high load" then RateLimited
  else if String.eqb msg "AI service is currently unavailable" then ProviderUnavailable
  else if String.eqb msg "Empty response from OpenAI" then EmptyResponse
  else Unknown.

Inductive Outcome :=
| Fulfilled (response : str) (balance_after : Z)
| InsufficientBalance (balance : Z)
| GatewayFailure (reason : Reason)
| SystemFailure.

(** The outcome a text tells the user; the empty-message warning and the
    progress note tell none. *)
Definition outcome_of_reply (r : Reply) : option Outcome :=
  match r with
  | ResponseText response remaining => Some (Fulfilled response remaining)
  | BalanceWarning b => Some (InsufficientBalance b)
  | GatewayError msg => Some (GatewayFailure (classify msg))
  | ProcessingError => Some SystemFailure
  | EmptyMessage | Processing => None
  end.

Definition reply_of (e : Event) : option Reply :=
  match e with
  | SendMessage _ r => Some r
  | EditMessageText r _ _ => Some r
  | _ => None
  end.

Fixpoint replies (l : list Event) : list Reply :=
  match l with
  | [] => []
  | e :: l' => match reply_of e with
               | Some r => r :: replies l'
               | None => replies l'
               end
  end.

Fixpoint outcomes (l : list Event) : list Outcome :=
  match l with
  | [] => []
  | e :: l' => match reply_of e with
               | Some r => match outcome_of_reply r with
                           | Some o => o :: outcomes l'
                           | None => outcomes l'
                           end
               | None => outcomes l'
               end
  end.

Definition is_debit (e : Event) : bool :=
  match e with EnsureSufficientBalance _ => true | _ => false end.

Definition is_gateway_call (e : Event) : bool :=
  match e with GenerateResponse _ => true | _ => false end.

Definition is_ledger_call (e : Event) : bool :=
  match e with
  | GetOrCreateUser _ | EnsureSufficientBalance _ => true
  | _ => false
  end.

(** The response text shown to the user, if any. *)
Definition delivers (response : str) (e : Event) : Prop :=
  exists remaining, reply_of e = Some (ResponseText response remaining).

(** *** The ways a run can go *)

Inductive Path (env : Env) (tbl : users_table) (message : Message)
  : Frame * result unit -> Prop :=
| PathEmpty :
    truthy (strip (text message)) = false ->
    Path env tbl message
         (mkFrame tbl [SendMessage (chat_id message) EmptyMessage] None, inr tt)
| PathResolveRaises tbl1 msg :
    truthy (strip (text message)) = true ->
    resolve env tbl message = (tbl1, inl (DatabaseError msg)) ->
    Path env tbl message
         (mkFrame tbl1 [GetOrCreateUser (from_user_id message)] None,
          inl (UnboundLocalError "processing_msg"))
| PathInsufficient tbl1 user :
    truthy (strip (text message)) = true ->
    resolve env tbl message = (tbl1, inr user) ->
    balance user <= 0 ->
    Path env tbl message
         (mkFrame tbl1 [GetOrCreateUser (from_user_id message);
                        SendMessage (chat_id message) (BalanceWarning (balance user))]
                  None, inr tt)
| PathGatewayRaises tbl1 user msg :
    truthy (strip (text message)) = true ->
    resolve env tbl message = (tbl1, inr user) ->
    0 < balance user ->
    complete env message = inl (OpenAIError msg) ->
    Path env tbl message
         (mkFrame (while_generating env tbl1)
                  [GetOrCreateUser (from_user_id message);
                   SendMessage (chat_id message) Processing;
                   GenerateResponse (strip (text message));
                   EditMessageText (GatewayError msg) (chat_id message)
                                   (sent_message_id env)]
                  (Some (sent_message_id env)), inr tt)
| PathFulfilled tbl1 tbl2 user response :
    truthy (strip (text message)) = true ->
    resolve env tbl message = (tbl1, inr user) ->
    0 < balance user ->
    complete env message = inr response ->
    debit env message tbl1 = (tbl2, inr true) ->
    Path env tbl message
         (mkFrame tbl2
                  [GetOrCreateUser (from_user_id message);
                   SendMessage (chat_id message) Processing;
                   GenerateResponse (strip (text message));
                   EnsureSufficientBalance (from_user_id message);
                   EditMessageText (ResponseText response (balance user - 1))
                                   (chat_id message) (sent_message_id env)]
                  (Some (sent_message_id env)), inr tt)
| PathDebitRefused tbl1 tbl2 user response :
    truthy (strip (text message)) = true ->
    resolve env tbl message = (tbl1, inr user) ->
    0 < balance user ->
    complete env message = inr response ->
    debit env message tbl1 = (tbl2, inr false) ->
    Path env tbl message
         (mkFrame tbl2
                  [GetOrCreateUser (from_user_id message);
                   SendMessage (chat_id message) Processing;
                   GenerateResponse (strip (text message));
                   EnsureSufficientBalance (from_user_id message);
                   EditMessageText ProcessingError (chat_id message)
                                   (sent_message_id env)]
                  (Some (sent_message_id env)), inr tt)
| PathDebitRaises tbl1 tbl2 user response msg :
    truthy (strip (text message)) = true ->
    resolve env tbl message = (tbl1, inr user) ->
    0 < balance user ->
    complete env message = inr response ->
    debit env message tbl1 = (tbl2, inl (DatabaseError msg)) ->
    Path env tbl message
         (mkFrame tbl2
                  [GetOrCreateUser (from_user_id message);
                   SendMessage (chat_id message) Processing;
                   GenerateResponse (strip (text message));
                   EnsureSufficientBalance (from_user_id message);
                   EditMessageText ProcessingError (chat_id message)
                                   (sent_message_id env)]
                  (Some (sent_message_id env)), inr tt).

(** *** Requests served one after the other *)

(** Each request runs on the table the one before it left; the outcomes
    told to the user are collected per request. *)
Fixpoint serve (requests : list (Env * Message)) (tbl : users_table)
  : users_table * list (list Outcome) :=
  match requests with
  | [] => (tbl, [])
  | (env, message) :: rest =>
      let r := run env tbl message in
      let (tbl', told) := serve rest (users (fst r)) in
      (tbl', outcomes (calls (fst r)) :: told)
  end.

(** No other request commits during the run. *)
Definition quiet (env : Env) : Prop :=
  (forall t, before_create env t = t) /\ (forall t, while_generating env t = t).

(** The connection works throughout the run. *)
Definition sound (env : Env) : Prop :=
  healthy (conn_get env) /\ healthy (conn_create env) /\ healthy (conn_update env).

(** The provider answers every prompt with a response whose first choice
    has a content. *)
Definition answers (env : Env) : Prop :=
  forall prompt max_tokens, exists content rest,
    openai_create env prompt max_tokens = Responds (Some content :: rest).

(** *** The /start command *)

(** What [handle_start_command] reads of the message. *)
Record StartMessage := mkStart {
  s_chat_id : Z;
  s_from_user_id : Z;
  s_username : option str;
  s_first_name : option str;
  s_last_name : option str
}.

(** The two texts of [handle_start_command]. *)
Inductive StartReply :=
| Welcome (balance : Z) (first_name : option str)   (* _build_welcome_message *)
| RegistrationError.                                (* line 98 *)

Inductive StartEvent :=
| StartGetOrCreateUser (tg : Z) (d : user_data)
| StartSendMessage (chat : Z) (r : StartReply).

(** [MessageHandler._build_welcome_message] *)
Definition _build_welcome_message (balance : Z) (first_name : option str) : StartReply :=
  Welcome balance first_name.

(** [MessageHandler.handle_start_command]: the table it leaves, the calls it
    makes and how it ends.  Its [except] clause catches DatabaseError only. *)
Definition handle_start_command (env : Env) (message : StartMessage)
           (tbl : users_table) : users_table * list StartEvent * result unit :=
  let d := mkData (s_username message) (s_first_name message) (s_last_name message) in
  let resolving := StartGetOrCreateUser (s_from_user_id message) d in
  match get_or_create_user (conn_get env) (conn_create env) (before_create env)
                           (s_from_user_id message) d tbl with
  | (tbl1, inr user) =>
      let welcome_text := _build_welcome_message (balance user) (s_first_name message) in
      (tbl1, [resolving; StartSendMessage (s_chat_id message) welcome_text], inr tt)
  | (tbl1, inl (DatabaseError _)) =>
      (tbl1, [resolving; StartSendMessage (s_chat_id message) RegistrationError], inr tt)
  | (tbl1, inl e) => (tbl1, [resolving], inl e)
  end.

(** *** A transport that may fail *)

(** What telebot does with a call: the call goes through, or it raises
    (an API error, a network error) with a text.  Neither handler has an
    [except] clause for that, so it is an [OtherException] to them. *)
Definition Transport := Event -> option string.

(** The transport that delivers every call. *)
Definition delivering : Transport := fun _ => None.

(** A telebot call: recorded when it goes through. *)
Definition attempt (tr : Transport) (e : Event) : M unit :=
  fun f => match tr e with
           | Some err => (f, inl (OtherException err))
           | None => record e f
           end.

(** [self.bot.send_message] *)
Definition send_message_via (tr : Transport) (env : Env) (chat : Z) (r : Reply) : M Z :=
  attempt tr (SendMessage chat r) ;; ret (sent_message_id env).

(** [self.bot.edit_message_text] *)
Definition edit_message_text_via (tr : Transport) (r : Reply) (chat message_id : Z)
  : M unit :=
  attempt tr (EditMessageText r chat message_id).

(** [MessageHandler._send_balance_warning] *)
Definition _send_balance_warning_via (tr : Transport) (env : Env) (chat : Z)
           (balance : Z) : M unit :=
  send_message_via tr env chat (BalanceWarning balance) ;; ret tt.

(** [MessageHandler.handle_text_message], line for line as
    [handle_text_message], on a transport that may raise. *)
Definition handle_text_message_via (tr : Transport) (env : Env) (message : Message)
  : M unit :=
  let user_id := from_user_id message in
  let user_text := strip (text message) in
  if negb (truthy user_text) then
    send_message_via tr env (chat_id message) EmptyMessage ;; ret tt
  else
    try_except
      (user <- call_get_or_create_user env user_id ;;
       if balance user <=? 0 then
         _send_balance_warning_via tr env (chat_id message) (balance user)
       else
         sent <- send_message_via tr env (chat_id message) Processing ;;
         assign_processing_msg sent ;;
         response <- call_generate_response env user_text ;;
         debited <- call_ensure_sufficient_balance env user_id ;;
         if debited then
           let final_text := _build_response_text response (balance user - 1) in
           id <- read_processing_msg ;;
           edit_message_text_via tr final_text (chat_id message) id
         else
           raise (DatabaseError "Failed to deduct balance"))
      (fun e =>
         match e with
         | OpenAIError msg =>
             id <- read_processing_msg ;;
             edit_message_text_via tr (GatewayError msg) (chat_id message) id
         | DatabaseError _ =>
             id <- read_processing_msg ;;
             edit_message_text_via tr ProcessingError (chat_id message) id
         | _ => raise e
         end).

Definition run_via (tr : Transport) (env : Env) (tbl : users_table) (message : Message)
  : Frame * result unit :=
  handle_text_message_via tr env message (mkFrame tbl [] None).

(** What telebot does with a call of [handle_start_command]. *)
Definition StartTransport := StartEvent -> option string.

(** [MessageHandler.handle_start_command] on a transport that may raise:
    what [send_message] raises is no DatabaseError, so it leaves the
    handler, from the [try] block as from the [except] clause. *)
Definition handle_start_command_via (tr : StartTransport) (env : Env)
           (message : StartMessage) (tbl : users_table)
  : users_table * list StartEvent * result unit :=
  let d := mkData (s_username message) (s_first_name message) (s_last_name message) in
  let resolving := StartGetOrCreateUser (s_from_user_id message) d in
  match get_or_create_user (conn_get env) (conn_create env) (before_create env)
                           (s_from_user_id message) d tbl with
  | (tbl1, inr user) =>
      let welcome_text := _build_welcome_message (balance user) (s_first_name message) in
      let sending := StartSendMessage (s_chat_id message) welcome_text in
      match tr sending with
      | None => (tbl1, [resolving; sending], inr tt)
      | Some err => (tbl1, [resolving], inl (OtherException err))
      end
  | (tbl1, inl (DatabaseError _)) =>
      let sending := StartSendMessage (s_chat_id message) RegistrationError in
      match tr sending with
      | None => (tbl1, [resolving; sending], inr tt)
      | Some err => (tbl1, [resolving], inl (OtherException err))
      end
  | (tbl1, inl e) => (tbl1, [resolving], inl e)
  end.

End bot.

Import Py database bot.

(** * Properties of the ledger *)

Section LedgerFacts.

Lemma select_user_Some tg tbl u :
  select_user tg tbl = Some u -> In u tbl /\ tg_id u = tg.
Proof.
  unfold select_user. intros H. apply find_some in H.
  destruct H as [Hin Hk]. split; [exact Hin | lia].
Qed.

Lemma select_user_rows tg tbl :
  select_user tg tbl = hd_error (rows_of tg tbl).
Proof.
  unfold select_user, rows_of.
  induction tbl as [|r tbl IH]; simpl; [reflexivity|].
  destruct (tg_id r =? tg); simpl; auto.
Qed.

Lemma select_user_None tg tbl :
  select_user tg tbl = None <-> rows_of tg tbl = [].
Proof.
  rewrite select_user_rows. destruct (rows_of tg tbl); simpl; split; congruence.
Qed.

Lemma existsb_select tg tbl :
  existsb (fun r => tg_id r =? tg) tbl = true <-> select_user tg tbl <> None.
Proof.
  unfold select_user.
  induction tbl as [|r tbl IH]; simpl.
  - split; congruence.
  - destruct (tg_id r =? tg); simpl; [split; congruence | exact IH].
Qed.

Lemma rows_of_In tg tbl r : In r (rows_of tg tbl) <-> In r tbl /\ tg_id r = tg.
Proof.
  unfold rows_of. rewrite filter_In. rewrite Z.eqb_eq. reflexivity.
Qed.

(** Under the key constraint the row of a user is the only one. *)
Lemma primary_key_rows tg tbl u :
  primary_key tbl -> select_user tg tbl = Some u -> rows_of tg tbl = [u].
Proof.
  unfold primary_key, select_user, rows_of.
  induction tbl as [|r tbl IH]; simpl; intros Hk Hs; [discriminate|].
  inversion Hk as [|k ks Hnotin Hk']; subst.
  destruct (Z.eqb_spec (tg_id r) tg) as [E|E].
  - inversion Hs; subst r. f_equal.
    destruct (filter (fun r => tg_id r =? tg) tbl) as [|x xs] eqn:F; [reflexivity|].
    exfalso. apply Hnotin.
    assert (Hx : In x (filter (fun r => tg_id r =? tg) tbl)) by (rewrite F; left; reflexivity).
    apply filter_In in Hx. destruct Hx as [Hx Hxk].
    apply Z.eqb_eq in Hxk. rewrite E, <- Hxk. apply in_map. exact Hx.
  - apply IH; assumption.
Qed.

Lemma update_row_tg_id now tg delta r : tg_id (update_row now tg delta r) = tg_id r.
Proof. unfold update_row. destruct (update_where tg delta r); reflexivity. Qed.

Lemma update_row_other now tg delta r :
  tg_id r <> tg -> update_row now tg delta r = r.
Proof.
  intros H. unfold update_row, update_where.
  destruct (Z.eqb_spec (tg_id r) tg); [contradiction | reflexivity].
Qed.

Lemma update_rows_of now tg delta tg' tbl :
  rows_of tg' (map (update_row now tg delta) tbl)
  = map (update_row now tg delta) (rows_of tg' tbl).
Proof.
  unfold rows_of. induction tbl as [|r tbl IH]; simpl; [reflexivity|].
  rewrite update_row_tg_id. destruct (tg_id r =? tg'); simpl; rewrite IH; reflexivity.
Qed.

Lemma update_others_of now tg delta tbl :
  others_of tg (map (update_row now tg delta) tbl) = others_of tg tbl.
Proof.
  unfold others_of. induction tbl as [|r tbl IH]; simpl; [reflexivity|].
  rewrite update_row_tg_id.
  destruct (Z.eqb_spec (tg_id r) tg) as [E|E]; simpl; rewrite IH; [reflexivity|].
  rewrite update_row_other by exact E. reflexivity.
Qed.

Lemma update_keys now tg delta tbl :
  map tg_id (map (update_row now tg delta) tbl) = map tg_id tbl.
Proof.
  rewrite map_map. apply map_ext. intros r. apply update_row_tg_id.
Qed.

Lemma update_where_rows tg delta tbl :
  filter (update_where tg delta) tbl
  = filter (fun r => 0 <=? balance r + delta) (rows_of tg tbl).
Proof.
  unfold rows_of, update_where. induction tbl as [|r tbl IH]; simpl; [reflexivity|].
  destruct (tg_id r =? tg); simpl; [|exact IH].
  destruct (0 <=? balance r + delta); simpl; rewrite IH; reflexivity.
Qed.

(** An UPDATE whose WHERE clause matches no row writes nothing. *)
Lemma update_no_match now tg delta tbl :
  (forall r, In r tbl -> update_where tg delta r = false) ->
  map (update_row now tg delta) tbl = tbl.
Proof.
  intros H. induction tbl as [|r tbl IH]; simpl; [reflexivity|].
  unfold update_row at 1. rewrite (H r) by (left; reflexivity).
  f_equal. apply IH. intros r' Hr'. apply H. right. exact Hr'.
Qed.

Lemma update_row_non_negative now tg delta r :
  0 <= balance r -> 0 <= balance (update_row now tg delta r).
Proof.
  intros H. unfold update_row, update_where.
  destruct (tg_id r =? tg); simpl; [|exact H].
  destruct (Z.leb_spec 0 (balance r + delta)); simpl; assumption.
Qed.

Lemma update_balance_fst c tg delta tbl :
  fst (update_balance c tg delta tbl) = tbl
  \/ fst (update_balance c tg delta tbl) = map (update_row (current_timestamp c) tg delta) tbl.
Proof.
  unfold update_balance, get_cursor.
  destruct (fault c) as [[e|e]|]; simpl; auto.
Qed.

Lemma update_balance_non_negative c tg delta tbl :
  non_negative tbl -> non_negative (fst (update_balance c tg delta tbl)).
Proof.
  intros H. destruct (update_balance_fst c tg delta tbl) as [E|E]; rewrite E; [exact H|].
  unfold non_negative in *. rewrite Forall_forall in *.
  intros r Hr. apply in_map_iff in Hr. destruct Hr as [r0 [<- Hr0]].
  apply update_row_non_negative. apply H. exact Hr0.
Qed.

Lemma update_balance_primary_key c tg delta tbl :
  primary_key tbl -> primary_key (fst (update_balance c tg delta tbl)).
Proof.
  intros H. destruct (update_balance_fst c tg delta tbl) as [E|E]; rewrite E; [exact H|].
  unfold primary_key. rewrite update_keys. exact H.
Qed.

Lemma apply_adjustments_non_negative adjs : forall tbl,
  non_negative tbl -> non_negative (apply_adjustments adjs tbl).
Proof.
  unfold apply_adjustments.
  induction adjs as [|a adjs IH]; simpl; intros tbl H; [exact H|].
  apply IH. unfold apply_adjustment. apply update_balance_non_negative. exact H.
Qed.

(** A fault leaves the table as it was, whatever the operation. *)
Lemma get_cursor_fault {A} c (body : ledger A) tbl :
  fault c <> None -> fst (get_cursor c body tbl) = tbl.
Proof.
  intros Hf. unfold get_cursor. destruct (fault c) as [[x|x]|]; simpl; congruence.
Qed.

Lemma update_balance_rejected c tg delta tbl :
  (forall r, In r tbl -> tg_id r = tg -> balance r + delta < 0) ->
  fst (update_balance c tg delta tbl) = tbl
  /\ (healthy c -> snd (update_balance c tg delta tbl) = inr false).
Proof.
  intros H.
  assert (Hw : forall r, In r tbl -> update_where tg delta r = false).
  { intros r Hr. unfold update_where.
    destruct (Z.eqb_spec (tg_id r) tg) as [E|E]; simpl; [|reflexivity].
    apply Z.leb_gt. apply H; assumption. }
  split.
  - destruct (update_balance_fst c tg delta tbl) as [E|E]; rewrite E; [reflexivity|].
    apply update_no_match. exact Hw.
  - unfold healthy, update_balance, get_cursor. intros ->. simpl.
    replace (filter (update_where tg delta) tbl) with (@nil UserRow); [reflexivity|].
    symmetry. induction tbl as [|r tbl IH]; simpl; [reflexivity|].
    rewrite (Hw r) by (left; reflexivity).
    apply IH; intros; [apply H | apply Hw]; try right; assumption.
Qed.

End LedgerFacts.

Section Range.

Lemma update_row_stored now tg delta r :
  (int64 (tg_id r) /\ int64 (balance r) /\ int64 (total_requests r)) ->
  (tg_id r = tg -> 0 <= balance r + delta ->
   int64 (balance r + delta)
   /\ int64 (total_requests r + Z.abs (if delta <? 0 then - delta else 0))) ->
  int64 (tg_id (update_row now tg delta r))
  /\ int64 (balance (update_row now tg delta r))
  /\ int64 (total_requests (update_row now tg delta r)).
Proof.
  intros Hr Hs. unfold update_row, update_where.
  destruct (Z.eqb_spec (tg_id r) tg) as [E|E]; simpl; [|exact Hr].
  destruct (Z.leb_spec 0 (balance r + delta)) as [Hb|Hb]; simpl; [|exact Hr].
  destruct (Hs E Hb) as [H1 H2]. destruct Hr as [Hk _]. auto.
Qed.

(** An exact UPDATE leaves INTEGER values. *)
Lemma update_balance_stored c tg delta tbl :
  stored tbl -> sums_exact tg delta tbl -> stored (fst (update_balance c tg delta tbl)).
Proof.
  intros Hst Hs. destruct (update_balance_fst c tg delta tbl) as [E|E]; rewrite E; [exact Hst|].
  unfold stored in *. rewrite Forall_forall in *.
  intros r Hr. apply in_map_iff in Hr. destruct Hr as (r0 & <- & Hr0).
  apply update_row_stored; [apply Hst; exact Hr0 | apply Hs; exact Hr0].
Qed.

Lemma exact_firstn adjs : forall n tbl, exact adjs tbl -> exact (firstn n adjs) tbl.
Proof.
  induction adjs as [|a adjs IH]; intros [|n] tbl H; simpl in *; auto.
  destruct H as (Hb & Hs & Hrest). auto.
Qed.

Lemma apply_adjustments_stored adjs : forall tbl,
  stored tbl -> exact adjs tbl -> stored (apply_adjustments adjs tbl).
Proof.
  unfold apply_adjustments.
  induction adjs as [|a adjs IH]; simpl; intros tbl Hst He; [exact Hst|].
  destruct He as (_ & Hs & Hrest).
  apply IH; [|exact Hrest]. unfold apply_adjustment.
  apply update_balance_stored; assumption.
Qed.

End Range.

(** Tactics for the range conditions at concrete values. *)
Ltac in_range := unfold int64; simpl; lia.
Ltac bound := unfold binds; (split; [|split]); in_range.
Ltac row_exact :=
  let r := fresh "r" in
  let H := fresh "H" in
  intros r H _ _; simpl in H;
  repeat (destruct H as [<-|H]; [split; in_range|]); destruct H.
Ltac rows_stored := unfold stored; repeat (constructor; [repeat split; in_range|]); constructor.
Ltac sequence_exact :=
  simpl; repeat (split; [bound | split; [row_exact|]]); exact I.

(** C2.  Whatever sequence of adjustments [update_balance] is asked to apply
    to a table whose balances are all non-negative, on whatever connections,
    with amounts sqlite3 can bind and sums that stay INTEGER, the balances
    are non-negative (and INTEGER) after every prefix of the sequence; and a
    bound adjustment that would take every targeted balance below zero
    leaves the table as it is (balance and total_requests included) and, on
    a healthy connection, returns False. *)
Theorem update_balance_never_negative (adjs : list Adjustment) (tbl : users_table) :
  non_negative tbl -> stored tbl -> exact adjs tbl ->
  (forall n, non_negative (apply_adjustments (firstn n adjs) tbl)
             /\ stored (apply_adjustments (firstn n adjs) tbl))
  /\ (forall c tg delta,
        binds tg delta ->
        let t := apply_adjustments adjs tbl in
        (forall r, In r t -> tg_id r = tg -> balance r + delta < 0) ->
        fst (update_balance c tg delta t) = t
        /\ (healthy c -> snd (update_balance c tg delta t) = inr false)).
Proof.
  intros H Hst He. split.
  - intros n. split.
    + apply apply_adjustments_non_negative. exact H.
    + apply apply_adjustments_stored; [exact Hst | apply exact_firstn; exact He].
  - intros c tg delta _ t Hneg. apply update_balance_rejected. exact Hneg.
Qed.

Lemma update_balance_never_negative_witness :
  let tbl := [mkUser 7 None None None 1 0 100 100] in
  let adjs := [mkAdj (mkConn None 101) 7 (-1); mkAdj (mkConn None 102) 7 (-1);
               mkAdj (mkConn None 103) 7 5; mkAdj (mkConn None 104) 7 (-6)] in
  apply_adjustments adjs tbl = [mkUser 7 None None None 5 1 100 103]
  /\ non_negative (apply_adjustments adjs tbl).
Proof.
  intros tbl adjs. split; [reflexivity|].
  assert (H0 : non_negative tbl) by (repeat constructor; simpl; lia).
  assert (Hst : stored tbl) by rows_stored.
  assert (He : exact adjs tbl) by sequence_exact.
  pose proof (proj1 (proj1 (update_balance_never_negative adjs tbl H0 Hst He) 4%nat)) as H.
  exact H.
Defined.

(** C3.  On a healthy connection, for a user who has a row and a positive
    cost that sqlite3 can bind and that keeps the written sums INTEGER,
    [ensure_sufficient_balance] returns True exactly when the balance covers
    the cost; when it returns True the user's row has its balance lowered by
    the cost and its total_requests raised by the cost and every other row
    is as before; when it returns False the table is unchanged. *)
Theorem ensure_sufficient_balance_applied_iff
        (c : Conn) (tbl : users_table) (tg cost : Z) (u : UserRow) :
  healthy c -> primary_key tbl -> select_user tg tbl = Some u -> 0 < cost ->
  stored tbl -> binds tg (- cost) -> sums_exact tg (- cost) tbl ->
  exists applied : bool,
    snd (ensure_sufficient_balance c tg cost tbl) = inr applied
    /\ (applied = true <-> 0 <= balance u - cost)
    /\ (applied = true ->
         exists u',
           rows_of tg (fst (ensure_sufficient_balance c tg cost tbl)) = [u']
           /\ balance u' = balance u - cost
           /\ total_requests u' = total_requests u + cost
           /\ others_of tg (fst (ensure_sufficient_balance c tg cost tbl))
              = others_of tg tbl)
    /\ (applied = false -> fst (ensure_sufficient_balance c tg cost tbl) = tbl).
Proof.
  intros Hc Hk Hs Hcost _ _ _.
  pose proof (primary_key_rows tg tbl u Hk Hs) as Hrows.
  destruct (select_user_Some _ _ _ Hs) as [_ Htg].
  unfold ensure_sufficient_balance.
  destruct (Z.leb_spec 0 (balance u + - cost)) as [Hge|Hlt].
  - exists true.
    assert (Hw : update_where tg (- cost) u = true).
    { unfold update_where. rewrite Htg, Z.eqb_refl. simpl. apply Z.leb_le. exact Hge. }
    unfold healthy in Hc. unfold update_balance, get_cursor. rewrite Hc. simpl.
    repeat split.
    + rewrite update_where_rows, Hrows. simpl.
      unfold update_where in Hw. rewrite Htg, Z.eqb_refl in Hw. simpl in Hw.
      rewrite Hw. reflexivity.
    + intros _. lia.
    + intros _. exists (update_row (current_timestamp c) tg (- cost) u).
      rewrite update_rows_of, Hrows. simpl.
      unfold update_row. rewrite Hw. simpl.
      repeat split; try lia.
      * destruct (Z.ltb_spec (- cost) 0); lia.
      * apply update_others_of.
    + discriminate.
  - exists false.
    destruct (update_balance_rejected c tg (- cost) tbl) as [Hfst Hsnd].
    { intros r Hr Hrt.
      assert (Hin : In r (rows_of tg tbl)) by (apply rows_of_In; split; assumption).
      rewrite Hrows in Hin. destruct Hin as [<-|[]]. exact Hlt. }
    repeat split.
    + apply Hsnd. exact Hc.
    + discriminate.
    + intros; lia.
    + discriminate.
    + intros _. exact Hfst.
Qed.

Lemma ensure_sufficient_balance_applied_iff_witness :
  let c := mkConn None 200 in
  let u := mkUser 7 None None None 3 0 100 100 in
  ensure_sufficient_balance c 7 1 [u] = ([mkUser 7 None None None 2 1 100 200], inr true)
  /\ exists applied : bool,
       snd (ensure_sufficient_balance c 7 1 [u]) = inr applied
       /\ (applied = true <-> 0 <= balance u - 1).
Proof.
  intros c u. split; [reflexivity|].
  assert (Hk : primary_key [u]) by (repeat constructor; simpl; tauto).
  assert (Hst : stored [u]) by rows_stored.
  assert (Hb : binds 7 (- (1))) by bound.
  assert (Hx : sums_exact 7 (- (1)) [u]) by row_exact.
  destruct (ensure_sufficient_balance_applied_iff c [u] 7 1 u
              eq_refl Hk eq_refl ltac:(lia) Hst Hb Hx) as [applied [H1 [H2 _]]].
  exists applied. split; assumption.
Defined.

(** * Account creation *)

Section AccountCreation.

Variable tg : Z.

Lemma rows_of_app tbl1 tbl2 : rows_of tg (tbl1 ++ tbl2) = rows_of tg tbl1 ++ rows_of tg tbl2.
Proof. apply filter_app. Qed.

Lemma others_of_app tbl1 tbl2 :
  others_of tg (tbl1 ++ tbl2) = others_of tg tbl1 ++ others_of tg tbl2.
Proof. apply filter_app. Qed.

Lemma insert_or_ignore_present now d tbl :
  select_user tg tbl <> None -> insert_or_ignore now tg d tbl = tbl.
Proof.
  intros H. unfold insert_or_ignore.
  apply existsb_select in H. rewrite H. reflexivity.
Qed.

Lemma insert_or_ignore_absent now d tbl :
  select_user tg tbl = None ->
  insert_or_ignore now tg d tbl
  = tbl ++ [mkUser tg (d_username d) (d_first_name d) (d_last_name d)
                   config.default_free_requests 0 now now].
Proof.
  intros H. unfold insert_or_ignore.
  destruct (existsb (fun r => tg_id r =? tg) tbl) eqn:E; [|reflexivity].
  apply existsb_select in E. contradiction.
Qed.

Lemma create_user_present c d tbl u :
  healthy c -> select_user tg tbl = Some u -> create_user c tg d tbl = (tbl, inr u).
Proof.
  unfold healthy, create_user, get_cursor. intros -> Hs.
  rewrite insert_or_ignore_present by congruence. rewrite Hs. reflexivity.
Qed.

Lemma create_user_absent c d tbl :
  healthy c -> select_user tg tbl = None ->
  let u := mkUser tg (d_username d) (d_first_name d) (d_last_name d)
                  config.default_free_requests 0
                  (current_timestamp c) (current_timestamp c) in
  create_user c tg d tbl = (tbl ++ [u], inr u)
  /\ rows_of tg (tbl ++ [u]) = [u]
  /\ others_of tg (tbl ++ [u]) = others_of tg tbl
  /\ select_user tg (tbl ++ [u]) = Some u.
Proof.
  intros Hc Hs u. unfold healthy in Hc.
  assert (Hrows : rows_of tg (tbl ++ [u]) = [u]).
  { rewrite rows_of_app. apply select_user_None in Hs. rewrite Hs.
    unfold rows_of. simpl. rewrite Z.eqb_refl. reflexivity. }
  assert (Hsel : select_user tg (tbl ++ [u]) = Some u).
  { rewrite select_user_rows, Hrows. reflexivity. }
  repeat split; try assumption.
  - unfold create_user, get_cursor. rewrite Hc.
    rewrite insert_or_ignore_absent by exact Hs. fold u. rewrite Hsel. reflexivity.
  - rewrite others_of_app. unfold others_of at 2. simpl. rewrite Z.eqb_refl. simpl.
    apply app_nil_r.
Qed.

(** The read-back in [create_user] always finds a row: its own raise is
    never reached. *)
Lemma create_user_reads_back c d tbl :
  healthy c -> exists u, snd (create_user c tg d tbl) = inr u.
Proof.
  intros Hc. destruct (select_user tg tbl) as [u|] eqn:Hs.
  - exists u. rewrite (create_user_present c d tbl u Hc Hs). reflexivity.
  - destruct (create_user_absent c d tbl Hc Hs) as [E _]. rewrite E. eexists. reflexivity.
Qed.

Lemma create_user_faulty c d tbl :
  fault c <> None -> exists e, create_user c tg d tbl = (tbl, inl e).
Proof.
  intros Hf. unfold create_user, get_cursor.
  destruct (fault c) as [[x|x]|]; [eexists; reflexivity .. | congruence].
Qed.

Lemma get_user_healthy c tbl :
  healthy c -> get_user c tg tbl = (tbl, inr (select_user tg tbl)).
Proof. unfold healthy, get_user, get_cursor. intros ->. reflexivity. Qed.

Lemma get_user_faulty c tbl :
  fault c <> None -> exists e, get_user c tg tbl = (tbl, inl e).
Proof.
  intros Hf. unfold get_user, get_cursor.
  destruct (fault c) as [[x|x]|]; [eexists; reflexivity .. | congruence].
Qed.

Lemma get_or_create_user_existing c1 c2 between d tbl u :
  healthy c1 -> select_user tg tbl = Some u ->
  get_or_create_user c1 c2 between tg d tbl = (tbl, inr u).
Proof.
  intros Hc Hs. unfold get_or_create_user.
  rewrite get_user_healthy by exact Hc. rewrite Hs. reflexivity.
Qed.

(** *** Interleaved callers *)


Lemma caller_step_faulty c st tbl :
  fault c <> None ->
  caller_step c tg st tbl = (tbl, st) \/ exists e, caller_step c tg st tbl = (tbl, Failed e).
Proof.
  intros Hf. destruct st as [d|d|u|e]; simpl; auto.
  - destruct (get_user_faulty c tbl Hf) as [e ->]. right. eexists. reflexivity.
  - destruct (create_user_faulty c d tbl Hf) as [e ->]. right. eexists. reflexivity.
Qed.




(** [create_user] keeps the key constraint. *)
Lemma create_user_primary_key c d tbl :
  primary_key tbl -> primary_key (fst (create_user c tg d tbl)).
Proof.
  intros Hk. destruct (fault c) as [flt|] eqn:Hc.
  - destruct (create_user_faulty c d tbl) as [e ->]; [congruence | exact Hk].
  - destruct (select_user tg tbl) as [u|] eqn:Hs.
    + rewrite (create_user_present c d tbl u Hc Hs). exact Hk.
    + destruct (create_user_absent c d tbl Hc Hs) as (E & _). rewrite E. simpl.
      unfold primary_key in *. rewrite map_app. simpl.
      apply NoDup_app; [exact Hk | repeat constructor; simpl; tauto |].
      intros k Hin [<-|[]]. apply in_map_iff in Hin. destruct Hin as (r & Hr & Hin).
      apply select_user_None in Hs.
      assert (Hrow : In r (rows_of tg tbl)) by (apply rows_of_In; split; assumption).
      rewrite Hs in Hrow. destruct Hrow.
Qed.

(** One transaction of a caller either writes nothing or, finding no row
    for the user, appends the one fresh row: a row that exists is never
    written again, whatever else happened to it in the meantime. *)
Lemma caller_step_writes_once c st tbl :
  fst (caller_step c tg st tbl) = tbl
  \/ (rows_of tg tbl = []
      /\ exists u, fst (caller_step c tg st tbl) = tbl ++ [u]
                   /\ tg_id u = tg
                   /\ balance u = config.default_free_requests
                   /\ total_requests u = 0).
Proof.
  destruct (fault c) as [flt|] eqn:Hc.
  { assert (Hne : fault c <> None) by congruence.
    destruct (caller_step_faulty c st tbl Hne) as [E|[e E]]; rewrite E; left; reflexivity. }
  destruct st as [d|d|u|e]; simpl; auto.
  - rewrite get_user_healthy by exact Hc.
    destruct (select_user tg tbl); left; reflexivity.
  - destruct (select_user tg tbl) as [u|] eqn:Hs.
    + rewrite (create_user_present c d tbl u Hc Hs). left. reflexivity.
    + destruct (create_user_absent c d tbl Hc Hs) as (E & _). rewrite E. right.
      split; [apply select_user_None; exact Hs|].
      eexists. repeat split.
Qed.

End AccountCreation.



(** * Properties of the request handler *)

Section Strings.

Lemma lstrip_nil_iff s : lstrip s = [] <-> forallb isspace s = true.
Proof.
  induction s as [|c s IH]; simpl; [tauto|].
  destruct (isspace c); simpl; [exact IH | split; discriminate].
Qed.

Lemma lstrip_head s c t : lstrip s = c :: t -> isspace c = false.
Proof.
  induction s as [|a s IH]; simpl; [discriminate|].
  destruct (isspace a) eqn:E; [exact IH|].
  intros H. inversion H; subst. exact E.
Qed.

Lemma forallb_rev {A} (p : A -> bool) l : forallb p (rev l) = forallb p l.
Proof.
  induction l as [|a l IH]; simpl; [reflexivity|].
  rewrite forallb_app, IH. simpl. rewrite andb_true_r. apply andb_comm.
Qed.

(** [strip] leaves nothing exactly of the strings made of whitespace. *)
Lemma strip_nil_iff s : strip s = [] <-> forallb isspace s = true.
Proof.
  unfold strip, rstrip. split.
  - intros H. apply (f_equal (@rev N)) in H. rewrite rev_involutive in H. simpl in H.
    apply lstrip_nil_iff in H. rewrite forallb_rev in H.
    destruct (lstrip s) as [|c t] eqn:E; [apply lstrip_nil_iff; exact E|].
    apply lstrip_head in E. simpl in H. rewrite E in H. discriminate.
  - intros H. apply lstrip_nil_iff in H. rewrite H. reflexivity.
Qed.

Lemma truthy_false_iff s : truthy s = false <-> s = [].
Proof. destruct s; simpl; split; congruence. Qed.

End Strings.

Section Gateway.

(** Whatever goes wrong inside [generate_response] leaves it as a
    [bot.OpenAIError]. *)
Lemma generate_response_raises_OpenAIError openai prompt max_tokens e :
  generate_response openai prompt max_tokens = inl e -> exists msg, e = OpenAIError msg.
Proof.
  unfold generate_response.
  destruct (generate_response_body (openai prompt max_tokens)) as [x|t]; [|discriminate].
  intros H. inversion H. destruct x; simpl; eexists; reflexivity.
Qed.

End Gateway.

Section Debit.

(** A debit that reports False has written nothing. *)
Lemma update_balance_false c tg delta tbl tbl' :
  update_balance c tg delta tbl = (tbl', inr false) -> tbl' = tbl.
Proof.
  unfold update_balance, get_cursor.
  destruct (fault c) as [[x|x]|]; try discriminate.
  intros H. inversion H as [[Ht Hr]]. clear H.
  apply update_no_match. intros r Hr'.
  destruct (update_where tg delta r) eqn:E; [|reflexivity].
  exfalso.
  assert (Hin : In r (filter (update_where tg delta) tbl)) by (apply filter_In; auto).
  destruct (filter (update_where tg delta) tbl); [destruct Hin | simpl in Hr; discriminate].
Qed.

Lemma update_balance_raises c tg delta tbl tbl' e :
  update_balance c tg delta tbl = (tbl', inl e) ->
  tbl' = tbl /\ exists msg, e = DatabaseError msg.
Proof.
  unfold update_balance, get_cursor.
  destruct (fault c) as [[x|x]|]; intros H; inversion H; split; eauto.
Qed.

Lemma get_or_create_user_raises c1 c2 between tg d tbl tbl' e :
  get_or_create_user c1 c2 between tg d tbl = (tbl', inl e) ->
  exists msg, e = DatabaseError msg.
Proof.
  unfold get_or_create_user, get_user, create_user, get_cursor.
  destruct (fault c1) as [[x|x]|]; try (intros H; inversion H; eauto; fail).
  destruct (select_user tg tbl); [discriminate|].
  destruct (fault c2) as [[x|x]|]; try (intros H; inversion H; eauto; fail).
  destruct (select_user tg _); intros H; inversion H; eauto.
Qed.

(** A user found by the first read is returned with the table as it was. *)
Lemma get_or_create_user_found c1 c2 between tg d tbl tbl' u :
  get_or_create_user c1 c2 between tg d tbl = (tbl', inr u) ->
  select_user tg tbl <> None -> tbl' = tbl.
Proof.
  unfold get_or_create_user, get_user, get_cursor.
  destruct (fault c1) as [[x|x]|]; try discriminate.
  destruct (select_user tg tbl); [|congruence].
  intros H _. inversion H. reflexivity.
Qed.

End Debit.

Ltac unfold_handler :=
  cbv beta iota zeta delta
    [run handle_text_message try_except bind ret raise record on_ledger
     send_message edit_message_text assign_processing_msg read_processing_msg
     call_get_or_create_user call_generate_response call_ensure_sufficient_balance
     _send_balance_warning _build_response_text
     users calls processing_msg negb].

Section Handler.

Variable env : Env.
Variable tbl : users_table.
Variable message : Message.

Let chat := chat_id message.
Let user_id := from_user_id message.
Let user_text := strip (text message).
Let sent := sent_message_id env.
Let resolve := resolve env tbl message.
Let complete := complete env message.
Let debit := debit env message.

Local Ltac expose :=
  unfold resolve, complete, debit, chat, user_id, user_text, sent,
         bot.resolve, bot.complete, bot.debit in *.

Lemma run_empty :
  truthy user_text = false ->
  run env tbl message = (mkFrame tbl [SendMessage chat EmptyMessage] None, inr tt).
Proof.
  intros H. expose. unfold_handler. rewrite H. reflexivity.
Qed.

Lemma run_resolve_fails tbl1 e :
  truthy user_text = true -> resolve = (tbl1, inl e) ->
  run env tbl message
  = (mkFrame tbl1 [GetOrCreateUser user_id] None, inl (UnboundLocalError "processing_msg")).
Proof.
  intros H Hr. destruct (get_or_create_user_raises _ _ _ _ _ _ _ _ Hr) as [msg ->].
  expose. unfold_handler.
  rewrite H, Hr. reflexivity.
Qed.

Lemma run_insufficient tbl1 user :
  truthy user_text = true -> resolve = (tbl1, inr user) -> balance user <= 0 ->
  run env tbl message
  = (mkFrame tbl1 [GetOrCreateUser user_id;
                   SendMessage chat (BalanceWarning (balance user))] None, inr tt).
Proof.
  intros H Hr Hb. expose. unfold_handler.
  rewrite H, Hr. apply Z.leb_le in Hb. rewrite Hb. reflexivity.
Qed.

Lemma run_gateway_fails tbl1 user msg :
  truthy user_text = true -> resolve = (tbl1, inr user) -> 0 < balance user ->
  complete = inl (OpenAIError msg) ->
  run env tbl message
  = (mkFrame (while_generating env tbl1)
             [GetOrCreateUser user_id; SendMessage chat Processing;
              GenerateResponse user_text;
              EditMessageText (GatewayError msg) chat sent] (Some sent), inr tt).
Proof.
  intros H Hr Hb Hc. expose. unfold_handler.
  rewrite H, Hr. apply Z.leb_gt in Hb. rewrite Hb, Hc. reflexivity.
Qed.

Lemma run_fulfilled tbl1 tbl2 user response :
  truthy user_text = true -> resolve = (tbl1, inr user) -> 0 < balance user ->
  complete = inr response -> debit tbl1 = (tbl2, inr true) ->
  run env tbl message
  = (mkFrame tbl2
             [GetOrCreateUser user_id; SendMessage chat Processing;
              GenerateResponse user_text; EnsureSufficientBalance user_id;
              EditMessageText (ResponseText response (balance user - 1)) chat sent]
             (Some sent), inr tt).
Proof.
  intros H Hr Hb Hc Hd. expose. unfold_handler.
  rewrite H, Hr. apply Z.leb_gt in Hb. rewrite Hb, Hc, Hd. reflexivity.
Qed.

Lemma run_debit_refused tbl1 tbl2 user response :
  truthy user_text = true -> resolve = (tbl1, inr user) -> 0 < balance user ->
  complete = inr response -> debit tbl1 = (tbl2, inr false) ->
  run env tbl message
  = (mkFrame tbl2
             [GetOrCreateUser user_id; SendMessage chat Processing;
              GenerateResponse user_text; EnsureSufficientBalance user_id;
              EditMessageText ProcessingError chat sent]
             (Some sent), inr tt).
Proof.
  intros H Hr Hb Hc Hd. expose. unfold_handler.
  rewrite H, Hr. apply Z.leb_gt in Hb. rewrite Hb, Hc, Hd. reflexivity.
Qed.

Lemma run_debit_raises tbl1 tbl2 user response e :
  truthy user_text = true -> resolve = (tbl1, inr user) -> 0 < balance user ->
  complete = inr response -> debit tbl1 = (tbl2, inl e) ->
  run env tbl message
  = (mkFrame tbl2
             [GetOrCreateUser user_id; SendMessage chat Processing;
              GenerateResponse user_text; EnsureSufficientBalance user_id;
              EditMessageText ProcessingError chat sent]
             (Some sent), inr tt).
Proof.
  intros H Hr Hb Hc Hd.
  destruct (update_balance_raises _ _ _ _ _ _ Hd) as [_ [m ->]].
  expose. unfold_handler.
  rewrite H, Hr. apply Z.leb_gt in Hb. rewrite Hb, Hc, Hd. reflexivity.
Qed.

End Handler.

Section Resolution.

Variable env : Env.
Variable tbl : users_table.
Variable message : Message.

(** The row the handler is given is the user's row in the table it
    continues on. *)
Lemma resolve_reads_table tbl1 user :
  resolve env tbl message = (tbl1, inr user) ->
  select_user (from_user_id message) tbl1 = Some user.
Proof.
  unfold resolve, get_or_create_user, get_user, create_user, get_cursor.
  destruct (fault (conn_get env)) as [[x|x]|]; try discriminate.
  destruct (select_user (from_user_id message) tbl) as [u|] eqn:Hs.
  - intros H. inversion H; subst. exact Hs.
  - destruct (fault (conn_create env)) as [[x|x]|]; try discriminate.
    destruct (select_user _ (insert_or_ignore _ _ _ _)) as [u|] eqn:Hs';
      intros H; inversion H; subst. exact Hs'.
Qed.

(** Once the account is resolved, the run returns normally and tells the
    user exactly one outcome. *)
Lemma run_after_resolution tbl1 user :
  truthy (strip (text message)) = true ->
  resolve env tbl message = (tbl1, inr user) ->
  snd (run env tbl message) = inr tt
  /\ exists o, outcomes (calls (fst (run env tbl message))) = [o].
Proof.
  intros H Hr.
  destruct (Z.leb_spec (balance user) 0) as [Hb|Hb].
  { rewrite (run_insufficient env tbl message tbl1 user H Hr Hb).
    split; [reflexivity | eexists; reflexivity]. }
  destruct (complete env message) as [e|response] eqn:Hc.
  { destruct (generate_response_raises_OpenAIError _ _ _ _ Hc) as [msg ->].
    rewrite (run_gateway_fails env tbl message tbl1 user msg H Hr Hb Hc).
    split; [reflexivity | eexists; reflexivity]. }
  destruct (debit env message tbl1) as [tbl2 [e|[|]]] eqn:Hd.
  - rewrite (run_debit_raises env tbl message tbl1 tbl2 user response e H Hr Hb Hc Hd).
    split; [reflexivity | eexists; reflexivity].
  - rewrite (run_fulfilled env tbl message tbl1 tbl2 user response H Hr Hb Hc Hd).
    split; [reflexivity | eexists; reflexivity].
  - rewrite (run_debit_refused env tbl message tbl1 tbl2 user response H Hr Hb Hc Hd).
    split; [reflexivity | eexists; reflexivity].
Qed.

(** The gateway is called only for a non-empty text, on a resolved account
    with a positive balance, and with the stripped text as prompt. *)
Lemma gateway_called_only_when_funded prompt :
  In (GenerateResponse prompt) (calls (fst (run env tbl message))) ->
  truthy (strip (text message)) = true
  /\ prompt = strip (text message)
  /\ exists tbl1 user, resolve env tbl message = (tbl1, inr user) /\ 0 < balance user.
Proof.
  destruct (truthy (strip (text message))) eqn:H.
  2:{ rewrite (run_empty env tbl message H). simpl. intros [E|[]]. discriminate. }
  destruct (resolve env tbl message) as [tbl1 [e|user]] eqn:Hr.
  { rewrite (run_resolve_fails env tbl message tbl1 e H Hr). simpl.
    intros [E|[]]. discriminate. }
  destruct (Z.leb_spec (balance user) 0) as [Hb|Hb].
  { rewrite (run_insufficient env tbl message tbl1 user H Hr Hb). simpl.
    intros [E|[E|[]]]; discriminate. }
  assert (Hfunded : exists t u, (tbl1, @inr exn _ user) = (t, inr u) /\ 0 < balance u)
    by (exists tbl1, user; split; [reflexivity | exact Hb]).
  destruct (complete env message) as [e|response] eqn:Hc.
  { destruct (generate_response_raises_OpenAIError _ _ _ _ Hc) as [msg ->].
    rewrite (run_gateway_fails env tbl message tbl1 user msg H Hr Hb Hc). simpl.
    intros [E|[E|[E|[E|[]]]]]; try discriminate. inversion E. auto. }
  destruct (debit env message tbl1) as [tbl2 [e|[|]]] eqn:Hd.
  - rewrite (run_debit_raises env tbl message tbl1 tbl2 user response e H Hr Hb Hc Hd).
    simpl. intros [E|[E|[E|[E|[E|[]]]]]]; try discriminate. inversion E. auto.
  - rewrite (run_fulfilled env tbl message tbl1 tbl2 user response H Hr Hb Hc Hd).
    simpl. intros [E|[E|[E|[E|[E|[]]]]]]; try discriminate. inversion E. auto.
  - rewrite (run_debit_refused env tbl message tbl1 tbl2 user response H Hr Hb Hc Hd).
    simpl. intros [E|[E|[E|[E|[E|[]]]]]]; try discriminate. inversion E. auto.
Qed.

(** The debit is called only after the gateway call has returned a text. *)
Lemma debit_only_after_completion tg :
  In (EnsureSufficientBalance tg) (calls (fst (run env tbl message))) ->
  exists response, complete env message = inr response.
Proof.
  destruct (truthy (strip (text message))) eqn:H.
  2:{ rewrite (run_empty env tbl message H). simpl. intros [E|[]]. discriminate. }
  destruct (resolve env tbl message) as [tbl1 [e|user]] eqn:Hr.
  { rewrite (run_resolve_fails env tbl message tbl1 e H Hr). simpl.
    intros [E|[]]. discriminate. }
  destruct (Z.leb_spec (balance user) 0) as [Hb|Hb].
  { rewrite (run_insufficient env tbl message tbl1 user H Hr Hb). simpl.
    intros [E|[E|[]]]; discriminate. }
  destruct (complete env message) as [e|response] eqn:Hc.
  { destruct (generate_response_raises_OpenAIError _ _ _ _ Hc) as [msg ->].
    rewrite (run_gateway_fails env tbl message tbl1 user msg H Hr Hb Hc). simpl.
    intros [E|[E|[E|[E|[]]]]]; discriminate. }
  intros _. exists response. reflexivity.
Qed.

(** A run ends by raising only when account resolution raised. *)
Lemma run_raises_only_at_resolution e :
  snd (run env tbl message) = inl e ->
  e = UnboundLocalError "processing_msg"
  /\ exists msg, snd (resolve env tbl message) = inl (DatabaseError msg).
Proof.
  destruct (truthy (strip (text message))) eqn:H.
  2:{ rewrite (run_empty env tbl message H). discriminate. }
  destruct (resolve env tbl message) as [tbl1 [e'|user]] eqn:Hr.
  { rewrite (run_resolve_fails env tbl message tbl1 e' H Hr). simpl.
    intros E. inversion E. split; [reflexivity|].
    destruct (get_or_create_user_raises _ _ _ _ _ _ _ _ Hr) as [msg ->]. eauto. }
  destruct (run_after_resolution tbl1 user H Hr) as [E _]. rewrite E. discriminate.
Qed.

End Resolution.

(** C10.  A message whose text is empty or all whitespace gets the
    empty-message warning and nothing else: the run makes that one call, so
    no ledger call and no gateway call, returns normally, and the table is
    the one it started from (no row changed, none added). *)
Theorem whitespace_message_touches_nothing
        (env : Env) (tbl : users_table) (message : Message) :
  forallb isspace (text message) = true ->
  run env tbl message
  = (mkFrame tbl [SendMessage (chat_id message) EmptyMessage] None, inr tt)
  /\ filter is_ledger_call (calls (fst (run env tbl message))) = []
  /\ filter is_gateway_call (calls (fst (run env tbl message))) = []
  /\ users (fst (run env tbl message)) = tbl.
Proof.
  intros H. apply strip_nil_iff in H. apply truthy_false_iff in H.
  rewrite (run_empty env tbl message H). repeat split.
Qed.

Lemma whitespace_message_touches_nothing_witness :
  let env := mkEnv (mkConn None 200) (mkConn None 200) (mkConn None 200)
                   (fun t => t) (fun t => t)
                   (fun _ _ => Responds [Some (lit "hello")]) 55 in
  let tbl := [mkUser 7 None None None 3 0 100 100] in
  run env tbl (mkMessage 1 8 (lit "   "))
  = (mkFrame tbl [SendMessage 1 EmptyMessage] None, inr tt).
Proof.
  intros env tbl.
  exact (proj1 (whitespace_message_touches_nothing env tbl (mkMessage 1 8 (lit "   "))
                  eq_refl)).
Defined.

(** C4.  When the row the handler is given has a balance of zero or less,
    the run sends the balance warning carrying that balance and returns:
    that warning is its only reply and its one outcome, InsufficientBalance
    of that balance; it calls neither the gateway nor the debit, and the
    table is as account resolution left it. *)
Theorem insufficient_balance_skips_gateway
        (env : Env) (tbl : users_table) (message : Message)
        (tbl1 : users_table) (user : UserRow) :
  truthy (strip (text message)) = true ->
  resolve env tbl message = (tbl1, inr user) ->
  balance user <= 0 ->
  let r := run env tbl message in
  snd r = inr tt
  /\ replies (calls (fst r)) = [BalanceWarning (balance user)]
  /\ outcomes (calls (fst r)) = [InsufficientBalance (balance user)]
  /\ filter is_gateway_call (calls (fst r)) = []
  /\ filter is_debit (calls (fst r)) = []
  /\ users (fst r) = tbl1.
Proof.
  intros H Hr Hb r. subst r.
  rewrite (run_insufficient env tbl message tbl1 user H Hr Hb). repeat split.
Qed.

Lemma insufficient_balance_skips_gateway_witness :
  let env := mkEnv (mkConn None 200) (mkConn None 200) (mkConn None 200)
                   (fun t => t) (fun t => t)
                   (fun _ _ => Responds [Some (lit "hello")]) 55 in
  let tbl := [mkUser 7 None None None 0 3 100 150] in
  outcomes (calls (fst (run env tbl (mkMessage 1 7 (lit "hi"))))) = [InsufficientBalance 0]
  /\ filter is_gateway_call (calls (fst (run env tbl (mkMessage 1 7 (lit "hi"))))) = [].
Proof.
  intros env tbl.
  destruct (insufficient_balance_skips_gateway env tbl (mkMessage 1 7 (lit "hi")) tbl
              (mkUser 7 None None None 0 3 100 150) eq_refl eq_refl ltac:(simpl; lia))
    as (_ & _ & Ho & Hg & _).
  split; assumption.
Defined.

(** C1.  When the gateway call of a run raises, what it raises is an
    OpenAIError; the run shows the user that error's text and returns; its
    one outcome is GatewayFailure; it never calls the debit; the table it
    ends on is the one the gateway call ended on, so the handler has written
    nothing since it resolved the account; and for a user who had a row when
    the request came in, the table is the starting one but for what other
    requests committed in the meantime. *)
Theorem gateway_failure_leaves_balance
        (env : Env) (tbl : users_table) (message : Message)
        (tbl1 : users_table) (user : UserRow) (e : exn) :
  truthy (strip (text message)) = true ->
  resolve env tbl message = (tbl1, inr user) ->
  0 < balance user ->
  complete env message = inl e ->
  let r := run env tbl message in
  exists msg,
    e = OpenAIError msg
    /\ snd r = inr tt
    /\ replies (calls (fst r)) = [Processing; GatewayError msg]
    /\ outcomes (calls (fst r)) = [GatewayFailure (classify msg)]
    /\ filter is_debit (calls (fst r)) = []
    /\ users (fst r) = while_generating env tbl1
    /\ (select_user (from_user_id message) tbl <> None ->
        users (fst r) = while_generating env tbl).
Proof.
  intros H Hr Hb Hc r. subst r.
  destruct (generate_response_raises_OpenAIError _ _ _ _ Hc) as [msg ->].
  exists msg.
  rewrite (run_gateway_fails env tbl message tbl1 user msg H Hr Hb Hc).
  repeat split. simpl. intros Hs.
  rewrite (get_or_create_user_found _ _ _ _ _ _ _ _ Hr Hs). reflexivity.
Qed.

Lemma gateway_failure_leaves_balance_witness :
  let env := mkEnv (mkConn None 200) (mkConn None 200) (mkConn None 200)
                   (fun t => t) (fun t => t)
                   (fun _ _ => Raises (RateLimitError "429")) 55 in
  let tbl := [mkUser 7 None None None 3 0 100 100] in
  let r := run env tbl (mkMessage 1 7 (lit "hi")) in
  outcomes (calls (fst r)) = [GatewayFailure RateLimited] /\ users (fst r) = tbl.
Proof.
  intros env tbl r.
  destruct (gateway_failure_leaves_balance env tbl (mkMessage 1 7 (lit "hi")) tbl
              (mkUser 7 None None None 3 0 100 100)
              (OpenAIError "Service temporarily unavailable due to high load")
              eq_refl eq_refl ltac:(simpl; lia) eq_refl)
    as (msg & Hm & _ & _ & Ho & _ & _ & Hu).
  inversion Hm; subst msg.
  split; [exact Ho | apply Hu; discriminate].
Defined.

(** C6.  When the gateway call returns a text and the debit then returns
    False, the run replaces the progress note by the processing-error text
    and returns: its one outcome is SystemFailure, no call of the run shows
    the user a response text, and nothing was debited: the table is the one
    the gateway call ended on. *)
Theorem refused_debit_discards_response
        (env : Env) (tbl : users_table) (message : Message)
        (tbl1 tbl2 : users_table) (user : UserRow) (response : str) :
  truthy (strip (text message)) = true ->
  resolve env tbl message = (tbl1, inr user) ->
  0 < balance user ->
  complete env message = inr response ->
  debit env message tbl1 = (tbl2, inr false) ->
  let r := run env tbl message in
  snd r = inr tt
  /\ replies (calls (fst r)) = [Processing; ProcessingError]
  /\ outcomes (calls (fst r)) = [SystemFailure]
  /\ (forall e shown, In e (calls (fst r)) -> ~ delivers shown e)
  /\ users (fst r) = while_generating env tbl1.
Proof.
  intros H Hr Hb Hc Hd r. subst r.
  rewrite (run_debit_refused env tbl message tbl1 tbl2 user response H Hr Hb Hc Hd).
  simpl. repeat split.
  - intros e shown Hin [remaining Hsh].
    repeat (destruct Hin as [<-|Hin]; [simpl in Hsh; discriminate|]). destruct Hin.
  - unfold debit, ensure_sufficient_balance in Hd.
    apply update_balance_false in Hd. exact Hd.
Qed.

Lemma refused_debit_discards_response_witness :
  let c := mkConn None 200 in
  let env := mkEnv c c c (fun t => t)
                   (fun t => fst (ensure_sufficient_balance (mkConn None 150) 7 1 t))
                   (fun _ _ => Responds [Some (lit "hello")]) 55 in
  let tbl := [mkUser 7 None None None 1 0 100 100] in
  let r := run env tbl (mkMessage 1 7 (lit "hi")) in
  outcomes (calls (fst r)) = [SystemFailure]
  /\ users (fst r) = [mkUser 7 None None None 0 1 100 150].
Proof.
  intros c env tbl r.
  destruct (refused_debit_discards_response env tbl (mkMessage 1 7 (lit "hi")) tbl
              [mkUser 7 None None None 0 1 100 150]
              (mkUser 7 None None None 1 0 100 100) (lit "hello")
              eq_refl eq_refl ltac:(simpl; lia) eq_refl eq_refl)
    as (_ & _ & Ho & _ & Hu).
  split; [exact Ho | exact Hu].
Defined.

Section Fulfilment.

Variable env : Env.
Variable tbl : users_table.
Variable message : Message.

(** What a fulfilled run reports is the balance read at account
    resolution, less one. *)
Lemma fulfilled_reports_read_balance tbl1 tbl2 user response :
  truthy (strip (text message)) = true ->
  resolve env tbl message = (tbl1, inr user) ->
  0 < balance user ->
  complete env message = inr response ->
  debit env message tbl1 = (tbl2, inr true) ->
  outcomes (calls (fst (run env tbl message))) = [Fulfilled response (balance user - 1)]
  /\ users (fst (run env tbl message)) = tbl2.
Proof.
  intros H Hr Hb Hc Hd.
  rewrite (run_fulfilled env tbl message tbl1 tbl2 user response H Hr Hb Hc Hd).
  split; reflexivity.
Qed.

(** With no other request committing while the gateway call is pending,
    that is the balance the debit leaves in the user's row. *)
Lemma fulfilled_alone_reports_balance_after tbl1 tbl2 user response :
  truthy (strip (text message)) = true ->
  resolve env tbl message = (tbl1, inr user) ->
  0 < balance user ->
  complete env message = inr response ->
  debit env message tbl1 = (tbl2, inr true) ->
  primary_key tbl1 ->
  while_generating env tbl1 = tbl1 ->
  exists user',
    rows_of (from_user_id message) tbl2 = [user']
    /\ total_requests user' = total_requests user + 1
    /\ outcomes (calls (fst (run env tbl message)))
       = [Fulfilled response (balance user')].
Proof.
  intros H Hr Hb Hc Hd Hk Hw.
  destruct (fulfilled_reports_read_balance tbl1 tbl2 user response H Hr Hb Hc Hd)
    as [Ho _].
  pose proof (resolve_reads_table env tbl message tbl1 user Hr) as Hs.
  pose proof (primary_key_rows _ _ _ Hk Hs) as Hrows.
  destruct (select_user_Some _ _ _ Hs) as [_ Htg].
  unfold debit, ensure_sufficient_balance, update_balance, get_cursor in Hd.
  rewrite Hw in Hd.
  destruct (fault (conn_update env)) as [[x|x]|]; try discriminate.
  inversion Hd as [[Ht Hrc]]. clear Hd Hrc.
  exists (update_row (current_timestamp (conn_update env)) (from_user_id message) (-1) user).
  rewrite update_rows_of, Hrows. simpl.
  unfold update_row, update_where. rewrite Htg, Z.eqb_refl. simpl.
  assert (Hle : (0 <=? balance user + -1) = true) by (apply Z.leb_le; lia).
  rewrite Hle. simpl. repeat split. exact Ho.
Qed.

End Fulfilment.

(** Scenario A: balance 3, the gateway returns "hello". *)
Example scenario_A :
  let c := mkConn None 200 in
  let env := mkEnv c c c (fun t => t) (fun t => t)
                   (fun _ _ => Responds [Some (lit "hello")]) 55 in
  let r := run env [mkUser 7 None None None 3 0 100 100] (mkMessage 1 7 (lit "hi")) in
  outcomes (calls (fst r)) = [Fulfilled (lit "hello") 2]
  /\ users (fst r) = [mkUser 7 None None None 2 1 100 200].
Proof. split; reflexivity. Qed.

(** C5.  Balance 3, the gateway returns "hello", and while the gateway call
    is pending another request of the same user is fulfilled and debited.
    Both debits are applied, the row ends with balance 1, and this run tells
    the user "hello" with 2 requests left: the balance read before the
    gateway call less one, not the balance after its debit. *)
Theorem fulfilled_reports_stale_balance :
  let c := mkConn None 200 in
  let env := mkEnv c c c (fun t => t)
                   (fun t => fst (ensure_sufficient_balance (mkConn None 150) 7 1 t))
                   (fun _ _ => Responds [Some (lit "hello")]) 55 in
  let r := run env [mkUser 7 None None None 3 0 100 100] (mkMessage 1 7 (lit "hi")) in
  snd r = inr tt
  /\ filter is_debit (calls (fst r)) = [EnsureSufficientBalance 7]
  /\ outcomes (calls (fst r)) = [Fulfilled (lit "hello") 2]
  /\ users (fst r) = [mkUser 7 None None None 1 2 100 200].
Proof. repeat split. Qed.

(** C8.  The connection fails while [get_or_create_user] reads the user.
    The DatabaseError reaches the handler's [except DatabaseError] clause,
    which reads [processing_msg] before anything was assigned to it: the run
    ends by raising UnboundLocalError and has sent the user nothing. *)
Theorem ledger_fault_at_resolution_escapes :
  let env := mkEnv (mkConn (Some (OperationFailed "database is locked")) 200)
                   (mkConn None 200) (mkConn None 200) (fun t => t) (fun t => t)
                   (fun _ _ => Responds [Some (lit "hello")]) 55 in
  let r := run env [mkUser 7 None None None 3 0 100 100] (mkMessage 1 7 (lit "hi")) in
  snd r = inl (UnboundLocalError "processing_msg")
  /\ replies (calls (fst r)) = []
  /\ outcomes (calls (fst r)) = [].
Proof. repeat split. Qed.

(** C9.  When the provider returns a response without choices, the [try]
    block raises OpenAIError "Empty response from OpenAI"; the enclosing
    [except Exception] clause catches it, and what [generate_response]
    raises is OpenAIError "Internal service error", the text of the
    catch-all class.  It never returns a text. *)
Theorem empty_choices_raise_internal_error (prompt : str) (max_tokens : Z) :
  generate_response_body (Responds []) = inl (OpenAIError "Empty response from OpenAI")
  /\ generate_response (fun _ _ => Responds []) prompt max_tokens
     = inl (OpenAIError "Internal service error")
  /\ classify "Internal service error" = Unknown
  /\ classify "Empty response from OpenAI" = EmptyResponse.
Proof. repeat split. Qed.


(** * Further properties of the ledger *)

Section Adjusting.

(** An adjustment that the balance covers is applied to the user's row and
    to no other. *)
Lemma update_balance_applied c tg delta tbl u :
  healthy c -> primary_key tbl -> select_user tg tbl = Some u ->
  0 <= balance u + delta ->
  let tbl' := map (update_row (current_timestamp c) tg delta) tbl in
  update_balance c tg delta tbl = (tbl', inr true)
  /\ rows_of tg tbl' = [update_set (current_timestamp c) delta u]
  /\ select_user tg tbl' = Some (update_set (current_timestamp c) delta u)
  /\ others_of tg tbl' = others_of tg tbl
  /\ primary_key tbl'.
Proof.
  intros Hc Hk Hs Hb tbl'.
  pose proof (primary_key_rows tg tbl u Hk Hs) as Hrows.
  destruct (select_user_Some _ _ _ Hs) as [_ Htg].
  assert (Hle : (0 <=? balance u + delta) = true) by (apply Z.leb_le; exact Hb).
  assert (Hw : update_where tg delta u = true).
  { unfold update_where. rewrite Htg, Z.eqb_refl, Hle. reflexivity. }
  assert (Hrows' : rows_of tg tbl' = [update_set (current_timestamp c) delta u]).
  { unfold tbl'. rewrite update_rows_of, Hrows. simpl.
    unfold update_row. rewrite Hw. reflexivity. }
  split; [|split; [|split; [|split]]].
  - unfold healthy in Hc. unfold update_balance, get_cursor. rewrite Hc.
    rewrite update_where_rows, Hrows. simpl. rewrite Hle. reflexivity.
  - exact Hrows'.
  - rewrite select_user_rows, Hrows'. reflexivity.
  - apply update_others_of.
  - unfold primary_key, tbl'. rewrite update_keys. exact Hk.
Qed.

Lemma Forall2_map_self {A} (R : A -> A -> Prop) (f : A -> A) (l : list A) :
  (forall a, R a (f a)) -> Forall2 R l (map f l).
Proof. intros H. induction l; simpl; constructor; auto. Qed.

Lemma Forall2_same {A} (R : A -> A -> Prop) (l : list A) :
  (forall a, R a a) -> Forall2 R l l.
Proof. intros H. induction l; constructor; auto. Qed.

Lemma Forall2_chain {A} (R : A -> A -> Prop) :
  (forall a b c, R a b -> R b c -> R a c) ->
  forall l1 l2 l3, Forall2 R l1 l2 -> Forall2 R l2 l3 -> Forall2 R l1 l3.
Proof.
  intros Ht l1 l2 l3 H12. revert l3.
  induction H12; intros l3 H23; inversion H23; subst; constructor; eauto.
Qed.

(** A relation that one UPDATE respects row by row holds from the table
    before a sequence of adjustments to the table after it. *)
Lemma apply_adjustments_rowwise (R : UserRow -> UserRow -> Prop)
      (ok : Adjustment -> Prop) :
  (forall r, R r r) ->
  (forall a b c, R a b -> R b c -> R a c) ->
  (forall a r, ok a -> R r (update_row (current_timestamp (a_conn a)) (a_tg a) (a_delta a) r)) ->
  forall adjs tbl, Forall ok adjs -> Forall2 R tbl (apply_adjustments adjs tbl).
Proof.
  intros Hrefl Htrans Hstep adjs.
  unfold apply_adjustments.
  induction adjs as [|a adjs IH]; simpl; intros tbl Hok.
  - apply Forall2_same. exact Hrefl.
  - inversion Hok as [|a' adjs' Ha Hrest]; subst.
    apply (Forall2_chain R Htrans _ (apply_adjustment tbl a)); [|apply IH; exact Hrest].
    unfold apply_adjustment.
    destruct (update_balance_fst (a_conn a) (a_tg a) (a_delta a) tbl) as [E|E]; rewrite E.
    + apply Forall2_same. exact Hrefl.
    + apply Forall2_map_self. intros r. apply Hstep. exact Ha.
Qed.

Lemma update_row_commute now1 now2 tg1 tg2 d1 d2 r :
  tg1 <> tg2 ->
  update_row now1 tg1 d1 (update_row now2 tg2 d2 r)
  = update_row now2 tg2 d2 (update_row now1 tg1 d1 r).
Proof.
  intros Hne.
  destruct (Z.eq_dec (tg_id r) tg1) as [E1|E1].
  - assert (E2 : tg_id r <> tg2) by congruence.
    rewrite (update_row_other now2 tg2 d2 r E2).
    rewrite (update_row_other now2 tg2 d2 (update_row now1 tg1 d1 r)); [reflexivity|].
    rewrite update_row_tg_id. exact E2.
  - rewrite (update_row_other now1 tg1 d1 r E1).
    rewrite (update_row_other now1 tg1 d1 (update_row now2 tg2 d2 r)); [reflexivity|].
    rewrite update_row_tg_id. exact E1.
Qed.

Lemma update_where_after_other now tg1 tg2 d1 d2 r :
  tg1 <> tg2 ->
  update_where tg2 d2 (update_row now tg1 d1 r) = update_where tg2 d2 r.
Proof.
  intros Hne.
  destruct (Z.eq_dec (tg_id r) tg1) as [E1|E1].
  - unfold update_where. rewrite update_row_tg_id.
    destruct (Z.eqb_spec (tg_id r) tg2); [congruence | reflexivity].
  - rewrite update_row_other by exact E1. reflexivity.
Qed.

Lemma rowcount_after_other now tg1 tg2 d1 d2 tbl :
  tg1 <> tg2 ->
  length (filter (update_where tg2 d2) (map (update_row now tg1 d1) tbl))
  = length (filter (update_where tg2 d2) tbl).
Proof.
  intros Hne. induction tbl as [|r tbl IH]; simpl; [reflexivity|].
  rewrite update_where_after_other by exact Hne.
  destruct (update_where tg2 d2 r); simpl; rewrite IH; reflexivity.
Qed.

End Adjusting.

(** X1.  Adjusting, by an amount sqlite3 can bind, the balance of a user
    who has no row writes nothing, and on a healthy connection returns
    False, for a credit as for a debit. *)
Theorem update_balance_unknown_user (c : Conn) (tg delta : Z) (tbl : users_table) :
  binds tg delta ->
  select_user tg tbl = None ->
  fst (update_balance c tg delta tbl) = tbl
  /\ (healthy c -> update_balance c tg delta tbl = (tbl, inr false)).
Proof.
  intros _ Hs.
  destruct (update_balance_rejected c tg delta tbl) as [Hfst Hsnd].
  { intros r Hr Htg. apply select_user_None in Hs.
    assert (Hin : In r (rows_of tg tbl)) by (apply rows_of_In; split; assumption).
    rewrite Hs in Hin. destruct Hin. }
  split; [exact Hfst|].
  intros Hc. rewrite (surjective_pairing (update_balance c tg delta tbl)).
  rewrite Hfst, (Hsnd Hc). reflexivity.
Qed.

Lemma update_balance_unknown_user_witness :
  update_balance (mkConn None 200) 8 5 [mkUser 7 None None None 3 0 100 100]
  = ([mkUser 7 None None None 3 0 100 100], inr false).
Proof.
  exact (proj2 (update_balance_unknown_user (mkConn None 200) 8 5
                  [mkUser 7 None None None 3 0 100 100] ltac:(bound) eq_refl) eq_refl).
Defined.

(** X2.  A credit (a delta of zero or more) that sqlite3 can bind and that
    keeps the balance INTEGER, on a healthy connection, for a user with a
    row and a balance that stays non-negative, returns True, adds the delta
    to the balance and stamps updated_at, and leaves total_requests, the
    rest of the row and every other row as they were. *)
Theorem credit_is_not_counted_as_request
        (c : Conn) (tg delta : Z) (tbl : users_table) (u : UserRow) :
  healthy c -> primary_key tbl -> select_user tg tbl = Some u ->
  0 <= delta -> 0 <= balance u + delta ->
  stored tbl -> binds tg delta -> sums_exact tg delta tbl ->
  exists u',
    snd (update_balance c tg delta tbl) = inr true
    /\ rows_of tg (fst (update_balance c tg delta tbl)) = [u']
    /\ balance u' = balance u + delta
    /\ total_requests u' = total_requests u
    /\ updated_at u' = current_timestamp c
    /\ same_account u u'
    /\ others_of tg (fst (update_balance c tg delta tbl)) = others_of tg tbl.
Proof.
  intros Hc Hk Hs Hd Hb _ _ _.
  destruct (update_balance_applied c tg delta tbl u Hc Hk Hs Hb) as (E & Hrows & _ & Ho & _).
  exists (update_set (current_timestamp c) delta u).
  rewrite E. simpl. repeat split; try assumption.
  destruct (Z.ltb_spec delta 0); [lia | simpl; lia].
Qed.

Lemma credit_is_not_counted_as_request_witness :
  exists u',
    rows_of 7 (fst (update_balance (mkConn None 200) 7 10
                      [mkUser 7 None None None 3 4 100 100])) = [u']
    /\ balance u' = 13 /\ total_requests u' = 4.
Proof.
  destruct (credit_is_not_counted_as_request (mkConn None 200) 7 10
              [mkUser 7 None None None 3 4 100 100]
              (mkUser 7 None None None 3 4 100 100) eq_refl
              ltac:(repeat constructor; simpl; tauto) eq_refl
              ltac:(lia) ltac:(simpl; lia)
              ltac:(rows_stored) ltac:(bound) ltac:(row_exact))
    as (u' & _ & Hr & Hb & Ht & _).
  exists u'. repeat split; assumption.
Defined.

(** X3.  Whatever adjustments are applied, on whatever connections, with
    amounts sqlite3 can bind and sums that stay INTEGER, the table keeps its
    rows in place: each row keeps its tg_id, names and created_at, its
    total_requests never goes down, and the sum of its balance and
    total_requests never goes down. *)
Theorem adjustments_keep_accounts (adjs : list Adjustment) (tbl : users_table) :
  stored tbl -> exact adjs tbl ->
  Forall2 (fun r r' => same_account r r'
                       /\ total_requests r <= total_requests r'
                       /\ balance r + total_requests r
                          <= balance r' + total_requests r')
          tbl (apply_adjustments adjs tbl)
  /\ stored (apply_adjustments adjs tbl).
Proof.
  intros Hst He. split; [|apply apply_adjustments_stored; assumption].
  apply (apply_adjustments_rowwise _ (fun _ => True)).
  - intros r. unfold same_account. repeat split; lia.
  - intros a b c (Sab & Tab & Bab) (Sbc & Tbc & Bbc).
    unfold same_account in *. repeat split; try lia; intuition congruence.
  - intros a r _. unfold update_row.
    destruct (update_where (a_tg a) (a_delta a) r); unfold same_account; simpl.
    + repeat split; destruct (Z.ltb_spec (a_delta a) 0); lia.
    + repeat split; lia.
  - apply Forall_forall. intros; exact I.
Qed.

Lemma adjustments_keep_accounts_witness :
  let tbl := [mkUser 7 None None None 3 4 100 100] in
  let adjs := [mkAdj (mkConn None 200) 7 (-2); mkAdj (mkConn None 201) 7 10] in
  apply_adjustments adjs tbl = [mkUser 7 None None None 11 6 100 201]
  /\ stored (apply_adjustments adjs tbl).
Proof.
  intros tbl adjs. split; [reflexivity|].
  exact (proj2 (adjustments_keep_accounts adjs tbl ltac:(rows_stored)
                  ltac:(sequence_exact))).
Defined.

(** X4.  Across debits alone (deltas of zero or less), with amounts sqlite3
    can bind and sums that stay INTEGER, every row keeps the sum of its
    balance and total_requests: each unit taken off a balance is counted as
    a request, and nothing else is. *)
Theorem debits_are_counted (adjs : list Adjustment) (tbl : users_table) :
  stored tbl -> exact adjs tbl ->
  Forall (fun a => a_delta a <= 0) adjs ->
  Forall2 (fun r r' => balance r' + total_requests r'
                       = balance r + total_requests r)
          tbl (apply_adjustments adjs tbl).
Proof.
  intros _ _.
  apply apply_adjustments_rowwise.
  - reflexivity.
  - intros a b c Hab Hbc. lia.
  - intros a r Ha. unfold update_row.
    destruct (update_where (a_tg a) (a_delta a) r); simpl; [|reflexivity].
    destruct (Z.ltb_spec (a_delta a) 0); lia.
Qed.

Lemma debits_are_counted_witness :
  Forall2 (fun r r' => balance r' + total_requests r' = balance r + total_requests r)
          [mkUser 7 None None None 3 4 100 100]
          (apply_adjustments [mkAdj (mkConn None 200) 7 (-2); mkAdj (mkConn None 201) 7 (-2)]
                             [mkUser 7 None None None 3 4 100 100]).
Proof.
  apply debits_are_counted; [rows_stored | sequence_exact|].
  repeat constructor; simpl; lia.
Defined.

Section Commuting.

Lemma Forall2_map_both {A B} (R : B -> B -> Prop) (f g : A -> B) (l : list A) :
  (forall a, R (f a) (g a)) -> Forall2 R (map f l) (map g l).
Proof. intros H. induction l; simpl; constructor; auto. Qed.

Lemma same_but_stamp_refl r : same_but_stamp r r.
Proof. unfold same_but_stamp. repeat split. Qed.

(** The same UPDATE at two times writes the same but for the stamp. *)
Lemma update_row_stamp now now' tg delta r :
  same_but_stamp (update_row now tg delta r) (update_row now' tg delta r).
Proof.
  unfold update_row. destruct (update_where tg delta r).
  - unfold same_but_stamp. simpl. repeat split.
  - apply same_but_stamp_refl.
Qed.

End Commuting.

(** X5.  Adjustments of two different users commute but for the time
    stamps: made one after the other on healthy connections, with amounts
    sqlite3 can bind and sums that stay INTEGER, in either order each
    returns the same and the two tables agree, row by row, on every column
    except updated_at, which records the order. *)
Theorem updates_of_distinct_users_commute
        (first second : Conn) (tg1 tg2 d1 d2 : Z) (tbl : users_table) :
  tg1 <> tg2 ->
  healthy first -> healthy second ->
  stored tbl ->
  binds tg1 d1 -> binds tg2 d2 ->
  sums_exact tg1 d1 tbl -> sums_exact tg2 d2 tbl ->
  let a := update_balance first tg1 d1 tbl in
  let ab := update_balance second tg2 d2 (fst a) in
  let b := update_balance first tg2 d2 tbl in
  let ba := update_balance second tg1 d1 (fst b) in
  snd ba = snd a
  /\ snd ab = snd b
  /\ Forall2 same_but_stamp (fst ab) (fst ba).
Proof.
  intros Hne H1 H2 _ _ _ _ _. assert (Hne' : tg2 <> tg1) by congruence.
  unfold healthy in H1, H2.
  unfold update_balance, get_cursor. rewrite H1, H2. simpl.
  split; [|split].
  - rewrite rowcount_after_other by exact Hne'. reflexivity.
  - rewrite rowcount_after_other by exact Hne. reflexivity.
  - rewrite !map_map. apply Forall2_map_both. intros r.
    destruct (Z.eq_dec (tg_id r) tg1) as [E1|E1].
    + assert (E2 : tg_id r <> tg2) by congruence.
      rewrite (update_row_other _ tg2 d2 (update_row _ tg1 d1 r))
        by (rewrite update_row_tg_id; exact E2).
      rewrite (update_row_other _ tg2 d2 r E2).
      apply update_row_stamp.
    + rewrite (update_row_other _ tg1 d1 r E1).
      rewrite (update_row_other _ tg1 d1 (update_row _ tg2 d2 r))
        by (rewrite update_row_tg_id; exact E1).
      apply update_row_stamp.
Qed.

Lemma updates_of_distinct_users_commute_witness :
  let tbl := [mkUser 7 None None None 3 0 100 100; mkUser 8 None None None 1 0 100 100] in
  let first := mkConn None 200 in
  let second := mkConn None 201 in
  fst (update_balance second 8 (-1) (fst (update_balance first 7 (-1) tbl)))
  = [mkUser 7 None None None 2 1 100 200; mkUser 8 None None None 0 1 100 201]
  /\ fst (update_balance second 7 (-1) (fst (update_balance first 8 (-1) tbl)))
     = [mkUser 7 None None None 2 1 100 201; mkUser 8 None None None 0 1 100 200]
  /\ Forall2 same_but_stamp
       (fst (update_balance second 8 (-1) (fst (update_balance first 7 (-1) tbl))))
       (fst (update_balance second 7 (-1) (fst (update_balance first 8 (-1) tbl)))).
Proof.
  intros tbl first second. split; [reflexivity|]. split; [reflexivity|].
  exact (proj2 (proj2 (updates_of_distinct_users_commute first second 7 8 (-1) (-1) tbl
                         ltac:(lia) eq_refl eq_refl ltac:(rows_stored)
                         ltac:(bound) ltac:(bound)
                         ltac:(row_exact) ltac:(row_exact)))).
Defined.

Section Repository.

Lemma insert_or_ignore_cases now tg d tbl :
  insert_or_ignore now tg d tbl = tbl
  \/ (select_user tg tbl = None
      /\ insert_or_ignore now tg d tbl
         = tbl ++ [mkUser tg (d_username d) (d_first_name d) (d_last_name d)
                          config.default_free_requests 0 now now]).
Proof.
  destruct (select_user tg tbl) eqn:Hs.
  - left. apply insert_or_ignore_present. congruence.
  - right. split; [reflexivity|]. apply insert_or_ignore_absent. exact Hs.
Qed.

Lemma create_user_fst c tg d tbl :
  fst (create_user c tg d tbl) = tbl
  \/ fst (create_user c tg d tbl) = insert_or_ignore (current_timestamp c) tg d tbl.
Proof.
  unfold create_user, get_cursor.
  destruct (fault c) as [[x|x]|]; simpl; auto.
  destruct (select_user tg _); simpl; auto.
Qed.

Lemma after_call_well_formed tbl k :
  primary_key tbl -> counted tbl ->
  primary_key (after_call tbl k) /\ counted (after_call tbl k).
Proof.
  intros Hk Hc. destruct k as [c tg|c tg d|c tg delta]; simpl.
  - unfold get_user, get_cursor. destruct (fault c) as [[x|x]|]; simpl; auto.
  - split; [apply create_user_primary_key; exact Hk|].
    destruct (create_user_fst c tg d tbl) as [E|E]; rewrite E; [exact Hc|].
    destruct (insert_or_ignore_cases (current_timestamp c) tg d tbl) as [E'|[_ E']];
      rewrite E'; [exact Hc|].
    unfold counted. apply Forall_app. split; [exact Hc|].
    repeat constructor; simpl; unfold config.default_free_requests; lia.
  - split; [apply update_balance_primary_key; exact Hk|].
    destruct (update_balance_fst c tg delta tbl) as [E|E]; rewrite E; [exact Hc|].
    unfold counted in *. rewrite Forall_forall in *.
    intros r Hr. apply in_map_iff in Hr. destruct Hr as (r0 & <- & Hr0).
    destruct (Hc r0 Hr0) as [Hb Ht]. split.
    + apply update_row_non_negative. exact Hb.
    + unfold update_row. destruct (update_where tg delta r0); simpl; lia.
Qed.

Lemma after_call_stored tbl k :
  stored tbl -> call_exact k tbl -> stored (after_call tbl k).
Proof.
  intros Hst Hx. destruct k as [c tg|c tg d|c tg delta]; simpl in *.
  - unfold get_user, get_cursor. destruct (fault c) as [[x|x]|]; simpl; exact Hst.
  - destruct (create_user_fst c tg d tbl) as [E|E]; rewrite E; [exact Hst|].
    destruct (insert_or_ignore_cases (current_timestamp c) tg d tbl) as [E'|[_ E']];
      rewrite E'; [exact Hst|].
    unfold stored. apply Forall_app. split; [exact Hst|].
    constructor; [|constructor]. simpl.
    split; [exact Hx | split; unfold config.default_free_requests; in_range].
  - destruct Hx as [_ Hs]. apply update_balance_stored; assumption.
Qed.

End Repository.



(** X8.  A table with unique tg_ids and with balances and request counts
    that are non-negative INTEGERs stays so under any sequence of
    [get_user], [create_user] and [update_balance] calls, on healthy or
    failing connections, whose arguments sqlite3 can bind and whose sums
    stay INTEGER; the empty table is such a table. *)
Theorem repository_keeps_table_well_formed
        (ks : list RepositoryCall) (tbl : users_table) :
  primary_key tbl ->
  Forall (fun r => 0 <= balance r /\ 0 <= total_requests r) tbl ->
  stored tbl ->
  calls_exact ks tbl ->
  primary_key (after_calls ks tbl)
  /\ Forall (fun r => 0 <= balance r /\ 0 <= total_requests r) (after_calls ks tbl)
  /\ stored (after_calls ks tbl).
Proof.
  unfold after_calls. revert tbl.
  induction ks as [|k ks IH]; simpl; intros tbl Hk Hc Hst He; [repeat split; assumption|].
  destruct He as [Hx Hrest].
  destruct (after_call_well_formed tbl k Hk Hc) as [Hk' Hc'].
  apply IH; try assumption.
  apply after_call_stored; assumption.
Qed.

Lemma repository_keeps_table_well_formed_witness :
  let c := mkConn None 200 in
  let ks := [CreateUser c 7 no_data; UpdateBalance c 7 (-2); CreateUser c 7 no_data;
             UpdateBalance c 7 (-2); CreateUser c 8 no_data; UpdateBalance c 8 4] in
  after_calls ks []
  = [mkUser 7 None None None 1 2 200 200; mkUser 8 None None None 7 0 200 200]
  /\ primary_key (after_calls ks []).
Proof.
  intros c ks. split; [reflexivity|].
  assert (He : calls_exact ks []).
  { simpl. repeat (split; [first [in_range | split; [bound | row_exact]]|]). exact I. }
  exact (proj1 (repository_keeps_table_well_formed ks [] (NoDup_nil Z) (Forall_nil _)
                  (Forall_nil _) He)).
Defined.




(** * Further properties of the gateway *)

Section Trimming.

Lemma lstrip_fixed c t : isspace c = false -> lstrip (c :: t) = c :: t.
Proof. intros H. simpl. rewrite H. reflexivity. Qed.

(** [lstrip] keeps the end of the text. *)
Lemma lstrip_last s c t d : lstrip s = c :: t -> last (c :: t) d = last s d.
Proof.
  induction s as [|a s IH]; [discriminate|].
  simpl lstrip. destruct (isspace a).
  - intros H. rewrite (IH H). destruct s; [discriminate | reflexivity].
  - intros H. rewrite H. reflexivity.
Qed.

Lemma last_rev_head {A} (c : A) t d : last (rev (c :: t)) d = c.
Proof. simpl. apply last_last. Qed.

Lemma rev_cons_inv {A} (l : list A) c t : rev l = c :: t -> l = rev t ++ [c].
Proof.
  intros H. apply (f_equal (@rev A)) in H. rewrite rev_involutive in H.
  exact H.
Qed.

(** What [strip] returns neither starts nor ends with whitespace. *)
Lemma strip_ends s c t :
  strip s = c :: t -> isspace c = false /\ isspace (last (c :: t) c) = false.
Proof.
  unfold strip, rstrip. intros H.
  destruct (lstrip (rev (lstrip s))) as [|x b] eqn:Eb; [discriminate|].
  pose proof (lstrip_head _ _ _ Eb) as Hx.
  split.
  - (* the head of the result is the last of [x :: b], which is the last
       of [rev (lstrip s)], the head of [lstrip s] *)
    destruct (lstrip s) as [|y a] eqn:Ea; [discriminate|].
    pose proof (lstrip_head _ _ _ Ea) as Hy.
    pose proof (lstrip_last _ _ _ c Eb) as Hl.
    rewrite last_rev_head in Hl.
    assert (Hc : last (x :: b) c = c).
    { apply rev_cons_inv in H. rewrite H. apply last_last. }
    rewrite Hc in Hl. subst y. exact Hy.
  - rewrite <- H. rewrite last_rev_head. exact Hx.
Qed.

Lemma rev_nonspace_fixed s c t :
  s = c :: t -> isspace c = false -> isspace (last s c) = false ->
  strip s = s.
Proof.
  intros -> Hc Hl. unfold strip, rstrip.
  rewrite (lstrip_fixed c t Hc).
  destruct (rev (c :: t)) as [|x b] eqn:Er.
  - apply (f_equal (@length N)) in Er. rewrite length_rev in Er. discriminate.
  - assert (Hx : x = last (c :: t) c).
    { apply rev_cons_inv in Er. rewrite Er. symmetry. apply last_last. }
    rewrite lstrip_fixed by (rewrite Hx; exact Hl).
    rewrite <- Er. apply rev_involutive.
Qed.

(** Trimming a trimmed text changes nothing. *)
Lemma strip_idempotent s : strip (strip s) = strip s.
Proof.
  destruct (strip s) as [|c t] eqn:E; [reflexivity|].
  destruct (strip_ends s c t E) as [Hc Hl].
  apply (rev_nonspace_fixed (c :: t) c t eq_refl Hc Hl).
Qed.

End Trimming.

(** X10.  Whatever the provider call does, an error leaves
    [generate_response] as an OpenAIError whose text is fixed by the class
    of what was raised inside: the invalid-key text for
    AuthenticationError, the high-load text for RateLimitError, the
    unavailable text for any other error of the provider's library, and
    "Internal service error" for everything else, a response without
    choices or without content included.  The text "Empty response from
    OpenAI" never leaves the function. *)
Theorem generate_response_error_texts
        (openai : str -> Z -> provider_call) (prompt : str) (max_tokens : Z) (e : exn) :
  generate_response openai prompt max_tokens = inl e ->
  exists msg,
    e = OpenAIError msg
    /\ msg = match openai prompt max_tokens with
             | Raises (AuthenticationError _) => "Invalid API key configuration"
             | Raises (RateLimitError _) =>
                 "Service temporarily unavailable due to high load"
             | Raises (LibOpenAIError _) => "AI service is currently unavailable"
             | _ => "Internal service error"
             end%string
    /\ msg <> "Empty response from OpenAI"%string.
Proof.
  unfold generate_response, generate_response_body.
  destruct (openai prompt max_tokens) as [[|[content|] rest]|x].
  - intros H. inversion H. eexists. repeat split. discriminate.
  - discriminate.
  - intros H. inversion H. eexists. repeat split. discriminate.
  - intros H. inversion H. destruct x; simpl; eexists; repeat split; discriminate.
Qed.

Lemma generate_response_error_texts_witness :
  exists msg,
    generate_response (fun _ _ => Raises (RateLimitError "429")) (lit "hi") 1000
    = inl (OpenAIError msg)
    /\ msg = "Service temporarily unavailable due to high load"%string.
Proof.
  destruct (generate_response_error_texts
              (fun _ _ => Raises (RateLimitError "429")) (lit "hi") 1000
              (OpenAIError "Service temporarily unavailable due to high load") eq_refl)
    as (msg & He & Hm & _).
  exists msg. split; [rewrite <- He; reflexivity | exact Hm].
Defined.

(** X11.  When [generate_response] returns a text, the provider returned a
    response whose first choice has a content, and the text is that content
    trimmed: trimming it again changes nothing, and if it is not empty it
    neither starts nor ends with whitespace.  The other choices are not
    read. *)
Theorem generate_response_returns_trimmed_first_choice
        (openai : str -> Z -> provider_call) (prompt : str) (max_tokens : Z)
        (response : str) :
  generate_response openai prompt max_tokens = inr response ->
  exists content rest,
    openai prompt max_tokens = Responds (Some content :: rest)
    /\ response = strip content
    /\ strip response = response
    /\ (forall c t, response = c :: t ->
          isspace c = false /\ isspace (last response c) = false).
Proof.
  unfold generate_response, generate_response_body.
  destruct (openai prompt max_tokens) as [[|[content|] rest]|x]; try discriminate.
  intros H. inversion H. exists content, rest.
  split; [reflexivity|]. split; [reflexivity|]. split.
  - apply strip_idempotent.
  - intros c t E. rewrite E. apply (strip_ends content). exact E.
Qed.

Lemma generate_response_returns_trimmed_first_choice_witness :
  exists content rest,
    Responds [Some (lit "  hello "); Some (lit "other")] = Responds (Some content :: rest)
    /\ lit "hello" = strip content.
Proof.
  destruct (generate_response_returns_trimmed_first_choice
              (fun _ _ => Responds [Some (lit "  hello "); Some (lit "other")])
              (lit "hi") 1000 (lit "hello") eq_refl)
    as (content & rest & Hp & Hr & _).
  exists content, rest. split; assumption.
Defined.


(** * Further properties of the request handler *)

Section Paths.

Variable env : Env.
Variable tbl : users_table.
Variable message : Message.

(** Every run goes one of the seven ways. *)
Lemma run_path : Path env tbl message (run env tbl message).
Proof.
  destruct (truthy (strip (text message))) eqn:H.
  2:{ rewrite (run_empty env tbl message H). constructor. exact H. }
  destruct (resolve env tbl message) as [tbl1 [e|user]] eqn:Hr.
  { rewrite (run_resolve_fails env tbl message tbl1 e H Hr).
    destruct (get_or_create_user_raises _ _ _ _ _ _ _ _ Hr) as [msg ->].
    eapply PathResolveRaises; eassumption. }
  destruct (Z.leb_spec (balance user) 0) as [Hb|Hb].
  { rewrite (run_insufficient env tbl message tbl1 user H Hr Hb).
    apply PathInsufficient; assumption. }
  destruct (complete env message) as [e|response] eqn:Hc.
  { destruct (generate_response_raises_OpenAIError _ _ _ _ Hc) as [msg ->].
    rewrite (run_gateway_fails env tbl message tbl1 user msg H Hr Hb Hc).
    eapply PathGatewayRaises; eassumption. }
  destruct (debit env message tbl1) as [tbl2 [e|[|]]] eqn:Hd.
  - rewrite (run_debit_raises env tbl message tbl1 tbl2 user response e H Hr Hb Hc Hd).
    destruct (update_balance_raises _ _ _ _ _ _ Hd) as [_ [msg ->]].
    eapply PathDebitRaises; eassumption.
  - rewrite (run_fulfilled env tbl message tbl1 tbl2 user response H Hr Hb Hc Hd).
    eapply PathFulfilled; eassumption.
  - rewrite (run_debit_refused env tbl message tbl1 tbl2 user response H Hr Hb Hc Hd).
    eapply PathDebitRefused; eassumption.
Qed.

End Paths.

Section Frames.

(** Account resolution with nobody else committing writes no row of
    another user. *)
Lemma get_or_create_user_others c1 c2 tg d tbl :
  others_of tg (fst (get_or_create_user c1 c2 (fun t => t) tg d tbl)) = others_of tg tbl.
Proof.
  unfold get_or_create_user, get_user, get_cursor.
  destruct (fault c1) as [[x|x]|]; simpl; try reflexivity.
  destruct (select_user tg tbl) as [u|] eqn:Hs; simpl; [reflexivity|].
  destruct (create_user_fst c2 tg d tbl) as [E|E]; rewrite E; [reflexivity|].
  rewrite insert_or_ignore_absent by exact Hs.
  rewrite others_of_app. unfold others_of at 2. simpl. rewrite Z.eqb_refl. simpl.
  apply app_nil_r.
Qed.

Lemma update_balance_others c tg delta tbl :
  others_of tg (fst (update_balance c tg delta tbl)) = others_of tg tbl.
Proof.
  destruct (update_balance_fst c tg delta tbl) as [E|E]; rewrite E; [reflexivity|].
  apply update_others_of.
Qed.

(** The debit of one request, for a user whose only row has a positive
    balance. *)
Lemma debit_one c tg tbl u :
  healthy c -> rows_of tg tbl = [u] -> 0 < balance u ->
  let u' := update_set (current_timestamp c) (-1) u in
  let tbl' := map (update_row (current_timestamp c) tg (-1)) tbl in
  ensure_sufficient_balance c tg 1 tbl = (tbl', inr true)
  /\ rows_of tg tbl' = [u']
  /\ others_of tg tbl' = others_of tg tbl
  /\ map tg_id tbl' = map tg_id tbl.
Proof.
  intros Hc Hrows Hb u' tbl'. unfold tbl'.
  assert (Htg : tg_id u = tg).
  { assert (Hin : In u (rows_of tg tbl)) by (rewrite Hrows; left; reflexivity).
    apply rows_of_In in Hin. tauto. }
  assert (Hle : (0 <=? balance u + -1) = true) by (apply Z.leb_le; lia).
  split; [|split; [|split]].
  - unfold healthy in Hc.
    unfold ensure_sufficient_balance, update_balance, get_cursor. rewrite Hc.
    rewrite update_where_rows, Hrows. simpl. rewrite Hle. reflexivity.
  - rewrite update_rows_of, Hrows. simpl.
    unfold update_row, update_where. rewrite Htg, Z.eqb_refl, Hle. reflexivity.
  - apply update_others_of.
  - apply update_keys.
Qed.

End Frames.

(** X12.  A run calls [get_or_create_user] at most once, the gateway at most
    once and the debit at most once, sends at most two texts and tells the
    user at most one outcome: nothing is retried and no request is debited
    twice. *)
Theorem run_calls_each_collaborator_once
        (env : Env) (tbl : users_table) (message : Message) :
  let log := calls (fst (run env tbl message)) in
  (length (filter is_ledger_call log) <= 2)%nat
  /\ (length (filter is_gateway_call log) <= 1)%nat
  /\ (length (filter is_debit log) <= 1)%nat
  /\ (length (replies log) <= 2)%nat
  /\ (length (outcomes log) <= 1)%nat.
Proof.
  destruct (run_path env tbl message); simpl; repeat split; lia.
Qed.

Ltac unfold_via :=
  cbv beta iota zeta delta
    [run_via run handle_text_message_via handle_text_message try_except bind ret raise
     record on_ledger attempt
     send_message_via send_message edit_message_text_via edit_message_text
     assign_processing_msg read_processing_msg
     call_get_or_create_user call_generate_response call_ensure_sufficient_balance
     _send_balance_warning_via _send_balance_warning _build_response_text
     users calls processing_msg negb].

(** On a transport that delivers every call, the handler is
    [handle_text_message] as the claims have it. *)
Lemma run_via_delivering tr env tbl message :
  (forall call, tr call = None) -> run_via tr env tbl message = run env tbl message.
Proof.
  intros Hall. unfold_via.
  destruct (truthy (strip (text message))).
  2:{ rewrite Hall. reflexivity. }
  destruct (get_or_create_user _ _ _ _ _ _) as [tbl1 [e|user]]; [destruct e; reflexivity|].
  destruct (balance user <=? 0).
  { rewrite Hall. reflexivity. }
  rewrite Hall. cbv beta iota.
  destruct (generate_response _ _ _) as [e|response].
  { destruct e; try reflexivity; rewrite Hall; reflexivity. }
  destruct (ensure_sufficient_balance _ _ _ _) as [tbl2 [e|[|]]].
  - destruct e; try reflexivity; rewrite Hall; reflexivity.
  - rewrite Hall. reflexivity.
  - rewrite Hall. reflexivity.
Qed.

Ltac via_leaf :=
  simpl;
  split;
  [ first [ left; reflexivity
          | right; left; reflexivity
          | right; right; do 2 eexists; split; [eassumption | reflexivity] ]
  | split;
    [ split;
      [ intros E; first [ discriminate E | split; [reflexivity | eauto] ]
      | intros [Ht (t1 & e1 & He)]; first [ reflexivity | discriminate ] ]
    | intros E; first [ discriminate E | repeat split ] ] ].

(** X13.  Whatever the transport does, a run of the text handler ends in
    one of three ways: it returns; or it raises the UnboundLocalError of
    [processing_msg]; or it raises what a telebot call raised, which no
    clause catches.  The UnboundLocalError comes exactly when the text is
    not blank and [get_or_create_user] raised, and then nothing has been
    sent to the user and neither the gateway nor the debit was called.  On
    a transport that delivers every call the run is the one of
    [handle_text_message], and it raises exactly in that case. *)
Theorem run_ends_three_ways
        (tr : Transport) (env : Env) (tbl : users_table) (message : Message) :
  let r := run_via tr env tbl message in
  (snd r = inr tt
   \/ snd r = inl (UnboundLocalError "processing_msg")
   \/ exists call err, tr call = Some err /\ snd r = inl (OtherException err))
  /\ (snd r = inl (UnboundLocalError "processing_msg")
      <-> truthy (strip (text message)) = true
          /\ exists tbl1 e, resolve env tbl message = (tbl1, inl e))
  /\ (snd r = inl (UnboundLocalError "processing_msg") ->
      replies (calls (fst r)) = []
      /\ filter is_gateway_call (calls (fst r)) = []
      /\ filter is_debit (calls (fst r)) = [])
  /\ ((forall call, tr call = None) ->
      r = run env tbl message
      /\ (snd r <> inr tt
          <-> truthy (strip (text message)) = true
              /\ exists tbl1 e, resolve env tbl message = (tbl1, inl e))).
Proof.
  intros r.
  assert (Hlast : (forall call, tr call = None) -> r = run env tbl message)
    by (apply run_via_delivering).
  cut ((snd r = inr tt
        \/ snd r = inl (UnboundLocalError "processing_msg")
        \/ exists call err, tr call = Some err /\ snd r = inl (OtherException err))
       /\ (snd r = inl (UnboundLocalError "processing_msg")
           <-> truthy (strip (text message)) = true
               /\ exists tbl1 e, resolve env tbl message = (tbl1, inl e))
       /\ (snd r = inl (UnboundLocalError "processing_msg") ->
           replies (calls (fst r)) = []
           /\ filter is_gateway_call (calls (fst r)) = []
           /\ filter is_debit (calls (fst r)) = [])).
  { intros (A & B & C). split; [exact A|]. split; [exact B|]. split; [exact C|].
    intros Hall. split; [apply Hlast; exact Hall|].
    split.
    - intros Hn. apply B.
      destruct A as [A|[A|(call & err & Hc & _)]];
        [contradiction | exact A | rewrite Hall in Hc; discriminate].
    - intros Hres. apply B in Hres. rewrite Hres. discriminate. }
  clear Hlast. subst r. unfold resolve. unfold_via.
  destruct (truthy (strip (text message))) eqn:H.
  2:{ destruct (tr (SendMessage (chat_id message) EmptyMessage)) eqn:Et; via_leaf. }
  destruct (get_or_create_user _ _ _ _ _ _) as [tbl1 [e|user]] eqn:Hr.
  { destruct (get_or_create_user_raises _ _ _ _ _ _ _ _ Hr) as [msg ->]. via_leaf. }
  destruct (balance user <=? 0).
  { destruct (tr (SendMessage (chat_id message) (BalanceWarning (balance user)))) eqn:Et;
      via_leaf. }
  destruct (tr (SendMessage (chat_id message) Processing)) eqn:Et; [via_leaf|].
  cbv beta iota.
  destruct (generate_response _ _ _) as [e|response] eqn:Hc.
  { destruct (generate_response_raises_OpenAIError _ _ _ _ Hc) as [msg ->].
    destruct (tr (EditMessageText (GatewayError msg) (chat_id message)
                                  (sent_message_id env))) eqn:Et2; via_leaf. }
  destruct (ensure_sufficient_balance _ _ _ _) as [tbl2 [e|[|]]] eqn:Hd.
  - destruct (update_balance_raises _ _ _ _ _ _ Hd) as [_ [msg ->]].
    destruct (tr (EditMessageText ProcessingError (chat_id message)
                                  (sent_message_id env))) eqn:Et2; via_leaf.
  - destruct (tr (EditMessageText (ResponseText response (balance user - 1))
                                  (chat_id message) (sent_message_id env))) eqn:Et2;
      via_leaf.
  - destruct (tr (EditMessageText ProcessingError (chat_id message)
                                  (sent_message_id env))) eqn:Et2; via_leaf.
Qed.

Lemma run_ends_three_ways_witness :
  let env := mkEnv (mkConn (Some (ConnectFailed "unable to open database file")) 200)
                   (mkConn None 200) (mkConn None 200) (fun t => t) (fun t => t)
                   (fun _ _ => Responds [Some (lit "hello")]) 55 in
  let r := run_via delivering env [mkUser 7 None None None 3 0 100 100]
                   (mkMessage 1 7 (lit "hi")) in
  snd r = inl (UnboundLocalError "processing_msg") /\ replies (calls (fst r)) = [].
Proof.
  intros env r.
  destruct (run_ends_three_ways delivering env [mkUser 7 None None None 3 0 100 100]
              (mkMessage 1 7 (lit "hi"))) as (_ & Hiff & Hquiet & _).
  assert (He : snd r = inl (UnboundLocalError "processing_msg")).
  { apply Hiff. split; [reflexivity|]. eexists. eexists. reflexivity. }
  split; [exact He | exact (proj1 (Hquiet He))].
Defined.

(** X28.  When the gateway returned a text, the debit was applied and the
    transport then refuses the edit that would show the response, the run
    raises the transport's error with the request debited: the table is the
    one the debit left, and the user has been sent the progress note and
    nothing else. *)
Theorem undelivered_response_is_charged
        (tr : Transport) (env : Env) (tbl : users_table) (message : Message)
        (tbl1 tbl2 : users_table) (user : UserRow) (response : str) (err : string) :
  truthy (strip (text message)) = true ->
  resolve env tbl message = (tbl1, inr user) ->
  0 < balance user ->
  complete env message = inr response ->
  debit env message tbl1 = (tbl2, inr true) ->
  tr (SendMessage (chat_id message) Processing) = None ->
  tr (EditMessageText (ResponseText response (balance user - 1)) (chat_id message)
                      (sent_message_id env)) = Some err ->
  let r := run_via tr env tbl message in
  snd r = inl (OtherException err)
  /\ users (fst r) = tbl2
  /\ replies (calls (fst r)) = [Processing]
  /\ outcomes (calls (fst r)) = []
  /\ filter is_debit (calls (fst r)) = [EnsureSufficientBalance (from_user_id message)].
Proof.
  intros H Hr Hb Hc Hd Hp He r. subst r.
  unfold resolve in Hr. unfold complete in Hc. unfold debit in Hd.
  unfold_via. rewrite H, Hr. apply Z.leb_gt in Hb. rewrite Hb, Hp. cbv beta iota.
  rewrite Hc, Hd, He. repeat split.
Qed.

Lemma undelivered_response_is_charged_witness :
  let c := mkConn None 200 in
  let env := mkEnv c c c (fun t => t) (fun t => t)
                   (fun _ _ => Responds [Some (lit "hello")]) 55 in
  let tr := fun call => match call with
                        | EditMessageText _ _ _ => Some "message to edit not found"%string
                        | _ => None
                        end in
  let r := run_via tr env [mkUser 7 None None None 3 0 100 100] (mkMessage 1 7 (lit "hi")) in
  snd r = inl (OtherException "message to edit not found")
  /\ users (fst r) = [mkUser 7 None None None 2 1 100 200].
Proof.
  intros c env tr r.
  destruct (undelivered_response_is_charged tr env [mkUser 7 None None None 3 0 100 100]
              (mkMessage 1 7 (lit "hi")) [mkUser 7 None None None 3 0 100 100]
              [mkUser 7 None None None 2 1 100 200]
              (mkUser 7 None None None 3 0 100 100) (lit "hello")
              "message to edit not found"
              eq_refl eq_refl ltac:(simpl; lia) eq_refl eq_refl eq_refl eq_refl)
    as (He & Hu & _).
  split; [exact He | exact Hu].
Defined.

(** X14.  A run tells the user Fulfilled only if the gateway returned that
    very text and the one debit it then made returned True; the number it
    shows is the balance it read at account resolution less one, and the
    table it leaves is the one that debit left. *)
Theorem fulfilled_only_after_debit
        (env : Env) (tbl : users_table) (message : Message)
        (response : str) (n : Z) :
  In (Fulfilled response n) (outcomes (calls (fst (run env tbl message)))) ->
  exists tbl1 user,
    resolve env tbl message = (tbl1, inr user)
    /\ 0 < balance user
    /\ n = balance user - 1
    /\ complete env message = inr response
    /\ debit env message tbl1 = (users (fst (run env tbl message)), inr true)
    /\ filter is_debit (calls (fst (run env tbl message)))
       = [EnsureSufficientBalance (from_user_id message)].
Proof.
  destruct (run_path env tbl message) as [H|tbl1 msg H Hr|tbl1 user H Hr Hb
    |tbl1 user msg H Hr Hb Hc|tbl1 tbl2 user response' H Hr Hb Hc Hd
    |tbl1 tbl2 user response' H Hr Hb Hc Hd|tbl1 tbl2 user response' msg H Hr Hb Hc Hd];
    simpl; intros Hin;
    try (repeat (destruct Hin as [Hin|Hin]; [discriminate|]); destruct Hin; fail).
  destruct Hin as [Hin|[]].
  inversion Hin; subst. exists tbl1, user. repeat split; assumption.
Qed.

Lemma fulfilled_only_after_debit_witness :
  let c := mkConn None 200 in
  let env := mkEnv c c c (fun t => t) (fun t => t)
                   (fun _ _ => Responds [Some (lit "hello")]) 55 in
  exists tbl1 user,
    resolve env [mkUser 7 None None None 3 0 100 100] (mkMessage 1 7 (lit "hi"))
    = (tbl1, inr user)
    /\ 2 = balance user - 1.
Proof.
  intros c env.
  destruct (fulfilled_only_after_debit env [mkUser 7 None None None 3 0 100 100]
              (mkMessage 1 7 (lit "hi")) (lit "hello") 2
              ltac:(left; reflexivity))
    as (tbl1 & user & Hr & _ & Hn & _).
  exists tbl1, user. split; assumption.
Defined.

(** X15.  When the gateway returned a text and the debit then raises (the
    connection fails), the run shows the processing-error text and returns:
    its one outcome is SystemFailure, no response text is shown, and the
    table is the one the gateway call ended on: the user is not charged. *)
Theorem failed_debit_is_not_charged
        (env : Env) (tbl : users_table) (message : Message)
        (tbl1 tbl2 : users_table) (user : UserRow) (response : str) (e : exn) :
  truthy (strip (text message)) = true ->
  resolve env tbl message = (tbl1, inr user) ->
  0 < balance user ->
  complete env message = inr response ->
  debit env message tbl1 = (tbl2, inl e) ->
  let r := run env tbl message in
  snd r = inr tt
  /\ replies (calls (fst r)) = [Processing; ProcessingError]
  /\ outcomes (calls (fst r)) = [SystemFailure]
  /\ users (fst r) = while_generating env tbl1.
Proof.
  intros H Hr Hb Hc Hd r. subst r.
  rewrite (run_debit_raises env tbl message tbl1 tbl2 user response e H Hr Hb Hc Hd).
  simpl. repeat split.
  unfold debit, ensure_sufficient_balance in Hd.
  apply update_balance_raises in Hd. tauto.
Qed.

Lemma failed_debit_is_not_charged_witness :
  let c := mkConn None 200 in
  let env := mkEnv c c (mkConn (Some (OperationFailed "disk I/O error")) 200)
                   (fun t => t) (fun t => t)
                   (fun _ _ => Responds [Some (lit "hello")]) 55 in
  let tbl := [mkUser 7 None None None 3 0 100 100] in
  let r := run env tbl (mkMessage 1 7 (lit "hi")) in
  outcomes (calls (fst r)) = [SystemFailure] /\ users (fst r) = tbl.
Proof.
  intros c env tbl r.
  destruct (failed_debit_is_not_charged env tbl (mkMessage 1 7 (lit "hi")) tbl tbl
              (mkUser 7 None None None 3 0 100 100) (lit "hello")
              (DatabaseError "Operation failed: disk I/O error")
              eq_refl eq_refl ltac:(simpl; lia) eq_refl eq_refl)
    as (_ & _ & Ho & Hu).
  split; assumption.
Defined.

(** X16.  With no other request committing in the meantime, a run writes
    no row of any user but the sender: the rows of the other users are, in
    the same order, what they were. *)
Theorem run_writes_only_the_sender
        (env : Env) (tbl : users_table) (message : Message) :
  quiet env ->
  others_of (from_user_id message) (users (fst (run env tbl message)))
  = others_of (from_user_id message) tbl.
Proof.
  intros [Hq1 Hq2].
  assert (Hres : forall tbl1 r, resolve env tbl message = (tbl1, r) ->
                 others_of (from_user_id message) tbl1
                 = others_of (from_user_id message) tbl).
  { intros tbl1 r Hr. unfold resolve in Hr.
    pose proof (get_or_create_user_others (conn_get env) (conn_create env)
                  (from_user_id message) no_data tbl) as Ho.
    assert (E : get_or_create_user (conn_get env) (conn_create env) (before_create env)
                  (from_user_id message) no_data tbl
                = get_or_create_user (conn_get env) (conn_create env) (fun t => t)
                    (from_user_id message) no_data tbl).
    { unfold get_or_create_user. destruct (get_user _ _ _) as [t [x|[u|]]]; try reflexivity.
      rewrite Hq1. reflexivity. }
    rewrite E in Hr. rewrite Hr in Ho. exact Ho. }
  assert (Hdeb : forall tbl1 tbl2 r, debit env message tbl1 = (tbl2, r) ->
                 others_of (from_user_id message) tbl2
                 = others_of (from_user_id message) tbl1).
  { intros tbl1 tbl2 r Hd. unfold debit, ensure_sufficient_balance in Hd.
    rewrite Hq2 in Hd.
    pose proof (update_balance_others (conn_update env) (from_user_id message) (Z.opp 1) tbl1)
      as Ho.
    rewrite Hd in Ho. exact Ho. }
  destruct (run_path env tbl message) as [H|tbl1 msg H Hr|tbl1 user H Hr Hb
    |tbl1 user msg H Hr Hb Hc|tbl1 tbl2 user response H Hr Hb Hc Hd
    |tbl1 tbl2 user response H Hr Hb Hc Hd|tbl1 tbl2 user response msg H Hr Hb Hc Hd];
    simpl; try reflexivity; try (eapply Hres; eassumption);
    try (rewrite Hq2; eapply Hres; eassumption);
    rewrite (Hdeb _ _ _ Hd); eapply Hres; eassumption.
Qed.

Lemma run_writes_only_the_sender_witness :
  let c := mkConn None 200 in
  let env := mkEnv c c c (fun t => t) (fun t => t)
                   (fun _ _ => Responds [Some (lit "hello")]) 55 in
  let tbl := [mkUser 7 None None None 3 0 100 100; mkUser 8 None None None 1 0 100 100] in
  others_of 8 (users (fst (run env tbl (mkMessage 1 8 (lit "hi")))))
  = [mkUser 7 None None None 3 0 100 100].
Proof.
  intros c env tbl.
  exact (run_writes_only_the_sender env tbl (mkMessage 1 8 (lit "hi"))
           (conj (fun t => eq_refl) (fun t => eq_refl))).
Defined.

Section Sessions.

Lemma serve_cons env message rest tbl :
  fst (serve ((env, message) :: rest) tbl)
  = fst (serve rest (users (fst (run env tbl message))))
  /\ snd (serve ((env, message) :: rest) tbl)
     = outcomes (calls (fst (run env tbl message)))
       :: snd (serve rest (users (fst (run env tbl message)))).
Proof.
  simpl. destruct (serve rest (users (fst (run env tbl message)))). split; reflexivity.
Qed.

Lemma rows_of_select tg tbl u : rows_of tg tbl = [u] -> select_user tg tbl = Some u.
Proof. intros H. rewrite select_user_rows, H. reflexivity. Qed.

(** A known sender is resolved to the row the table holds, with nothing
    written. *)
Lemma resolve_known env tbl message u :
  healthy (conn_get env) -> rows_of (from_user_id message) tbl = [u] ->
  resolve env tbl message = (tbl, inr u).
Proof.
  intros Hc Hrows. unfold resolve.
  apply get_or_create_user_existing; [exact Hc | apply rows_of_select; exact Hrows].
Qed.

Lemma complete_answered env message content rest :
  openai_create env (strip (text message)) 1000 = Responds (Some content :: rest) ->
  complete env message = inr (strip content).
Proof.
  intros H. unfold complete, generate_response, generate_response_body. rewrite H.
  reflexivity.
Qed.

(** One request of a known sender, served with the connection working,
    the provider answering and nobody else committing. *)
Lemma serve_one env tbl message u :
  sound env -> quiet env -> answers env ->
  truthy (strip (text message)) = true ->
  rows_of (from_user_id message) tbl = [u] ->
  let r := run env tbl message in
  (balance u <= 0 ->
     users (fst r) = tbl
     /\ outcomes (calls (fst r)) = [InsufficientBalance (balance u)])
  /\ (0 < balance u ->
      rows_of (from_user_id message) (users (fst r))
      = [update_set (current_timestamp (conn_update env)) (-1) u]
      /\ others_of (from_user_id message) (users (fst r))
         = others_of (from_user_id message) tbl
      /\ exists response,
           outcomes (calls (fst r)) = [Fulfilled response (balance u - 1)]).
Proof.
  intros (Hg & _ & Hu) (_ & Hq) Ha H Hrows r. subst r.
  pose proof (resolve_known env tbl message u Hg Hrows) as Hr.
  split; intros Hb.
  - rewrite (run_insufficient env tbl message tbl u H Hr Hb). split; reflexivity.
  - destruct (Ha (strip (text message)) 1000) as (content & rest & Hp).
    pose proof (complete_answered env message content rest Hp) as Hc.
    destruct (debit_one (conn_update env) (from_user_id message) tbl u Hu Hrows Hb)
      as (Hd & Hrows' & Ho & _).
    assert (Hd' : debit env message tbl
                  = (map (update_row (current_timestamp (conn_update env))
                                     (from_user_id message) (-1)) tbl, inr true)).
    { unfold debit. rewrite Hq. exact Hd. }
    rewrite (run_fulfilled env tbl message tbl _ u (strip content) H Hr Hb Hc Hd').
    simpl. split; [exact Hrows'|]. split; [exact Ho|]. eexists. reflexivity.
Qed.

End Sessions.

(** X17.  A known user's requests served one after the other, with the
    connection working, the provider answering and nobody else committing:
    the first [balance] of them are fulfilled, each showing one request
    less left, and all later ones get the balance warning with 0.  The
    balance ends at the starting balance less the number of requests, but
    not below 0; total_requests has grown by the number fulfilled; the
    other users' rows are as before. *)
Theorem balance_buys_that_many_requests
        (requests : list (Env * Message)) (tbl : users_table) (tg : Z) (u : UserRow) :
  rows_of tg tbl = [u] ->
  0 <= balance u ->
  Forall (fun rq => from_user_id (snd rq) = tg
                    /\ truthy (strip (text (snd rq))) = true
                    /\ sound (fst rq) /\ quiet (fst rq) /\ answers (fst rq))
         requests ->
  exists u',
    rows_of tg (fst (serve requests tbl)) = [u']
    /\ balance u' = Z.max 0 (balance u - Z.of_nat (length requests))
    /\ total_requests u'
       = total_requests u + Z.min (balance u) (Z.of_nat (length requests))
    /\ others_of tg (fst (serve requests tbl)) = others_of tg tbl
    /\ forall i told,
         nth_error (snd (serve requests tbl)) i = Some told ->
         if Z.of_nat i <? balance u
         then exists response,
                told = [Fulfilled response (balance u - Z.of_nat i - 1)]
         else told = [InsufficientBalance 0].
Proof.
  revert tbl u.
  induction requests as [|[env message] rest IH]; intros tbl u Hrows Hb Hall.
  - exists u. simpl. repeat split; try lia; try assumption.
    intros i told Hi. destruct i; discriminate.
  - inversion Hall as [|rq rs (Htg & Ht & Hs & Hq & Ha) Hrest]; subst rq rs.
    simpl in Htg, Ht, Hs, Hq, Ha. subst tg.
    destruct (serve_cons env message rest tbl) as [Efst Esnd].
    destruct (serve_one env tbl message u Hs Hq Ha Ht Hrows) as [Hzero Hpos].
    destruct (Z.leb_spec (balance u) 0) as [Hle|Hgt].
    + destruct (Hzero Hle) as [Eu Eo].
      assert (Hb0 : balance u = 0) by lia.
      destruct (IH tbl u Hrows Hb Hrest) as (u' & Hr' & Hbal & Htot & Hoth & Hnth).
      exists u'. rewrite Efst, Esnd, Eu, Eo.
      split; [exact Hr'|]. split; [lia|]. split; [lia|]. split; [exact Hoth|].
      intros i told Hi. destruct i as [|j]; simpl in Hi.
      * inversion Hi. rewrite Hb0. reflexivity.
      * specialize (Hnth j told Hi).
        destruct (Z.ltb_spec (Z.of_nat j) (balance u)); [lia|].
        destruct (Z.ltb_spec (Z.of_nat (S j)) (balance u)); [lia | exact Hnth].
    + destruct (Hpos Hgt) as (Hr1 & Ho1 & response & Eo).
      set (u1 := update_set (current_timestamp (conn_update env)) (-1) u) in *.
      assert (Hb1 : balance u1 = balance u - 1) by (unfold u1; simpl; lia).
      assert (Ht1 : total_requests u1 = total_requests u + 1) by reflexivity.
      destruct (IH (users (fst (run env tbl message))) u1 Hr1 ltac:(lia) Hrest)
        as (u' & Hr' & Hbal & Htot & Hoth & Hnth).
      exists u'. rewrite Efst, Esnd, Eo.
      change (Datatypes.length ((env, message) :: rest)) with (S (Datatypes.length rest)).
      rewrite Nat2Z.inj_succ.
      split; [exact Hr'|]. split; [lia|]. split; [lia|].
      split; [rewrite Hoth; exact Ho1|].
      intros i told Hi. destruct i as [|j]; simpl in Hi.
      * inversion Hi. destruct (Z.ltb_spec (Z.of_nat 0) (balance u)); [|simpl in *; lia].
        exists response. f_equal. f_equal. simpl. lia.
      * specialize (Hnth j told Hi). rewrite Hb1 in Hnth.
        destruct (Z.ltb_spec (Z.of_nat j) (balance u - 1));
          destruct (Z.ltb_spec (Z.of_nat (S j)) (balance u)); try lia.
        -- destruct Hnth as [resp ->]. exists resp. f_equal. f_equal. lia.
        -- exact Hnth.
Qed.

Lemma balance_buys_that_many_requests_witness :
  let c := mkConn None 200 in
  let env := mkEnv c c c (fun t => t) (fun t => t)
                   (fun _ _ => Responds [Some (lit "hello")]) 55 in
  let m := mkMessage 1 7 (lit "hi") in
  let u := mkUser 7 None None None 2 0 100 100 in
  serve [(env, m); (env, m); (env, m)] [u]
  = ([mkUser 7 None None None 0 2 100 200],
     [[Fulfilled (lit "hello") 1]; [Fulfilled (lit "hello") 0]; [InsufficientBalance 0]])
  /\ exists u', rows_of 7 (fst (serve [(env, m); (env, m); (env, m)] [u])) = [u']
                /\ balance u' = 0.
Proof.
  intros c env m u. split; [reflexivity|].
  assert (Hrq : from_user_id m = 7 /\ truthy (strip (text m)) = true
                /\ sound env /\ quiet env /\ answers env).
  { repeat split. intros prompt max_tokens. eexists. eexists. reflexivity. }
  assert (Hall : Forall (fun rq => from_user_id (snd rq) = 7
                                   /\ truthy (strip (text (snd rq))) = true
                                   /\ sound (fst rq) /\ quiet (fst rq) /\ answers (fst rq))
                        [(env, m); (env, m); (env, m)]).
  { repeat (constructor; [exact Hrq|]). constructor. }
  destruct (balance_buys_that_many_requests [(env, m); (env, m); (env, m)] [u] 7 u
              eq_refl ltac:(simpl; lia) Hall)
    as (u' & Hr & Hb & _).
  exists u'. split; [exact Hr | exact Hb].
Defined.

(** X18.  The first text of a user who has no row, with the connection
    working, the provider answering and nobody else committing: the account
    is created without names and with the starting balance, the request is
    fulfilled and debited in the same run, and the user is told the
    starting balance less one.  The table gains that one row, with
    total_requests 1, after the rows it had. *)
Theorem first_message_of_new_user
        (env : Env) (tbl : users_table) (message : Message)
        (content : str) (rest : list (option str)) :
  sound env -> quiet env ->
  truthy (strip (text message)) = true ->
  select_user (from_user_id message) tbl = None ->
  openai_create env (strip (text message)) 1000 = Responds (Some content :: rest) ->
  let r := run env tbl message in
  snd r = inr tt
  /\ outcomes (calls (fst r))
     = [Fulfilled (strip content) (config.default_free_requests - 1)]
  /\ users (fst r)
     = tbl ++ [mkUser (from_user_id message) None None None
                      (config.default_free_requests - 1) 1
                      (current_timestamp (conn_create env))
                      (current_timestamp (conn_update env))].
Proof.
  intros (Hg & Hcr & Hu) (Hq1 & Hq2) H Hs Hp r. subst r.
  destruct (create_user_absent (from_user_id message) (conn_create env) no_data tbl Hcr Hs)
    as (E & Hrows & _ & _).
  set (u := mkUser (from_user_id message) (d_username no_data) (d_first_name no_data)
                   (d_last_name no_data) config.default_free_requests 0
                   (current_timestamp (conn_create env))
                   (current_timestamp (conn_create env))) in *.
  assert (Hr : resolve env tbl message = (tbl ++ [u], inr u)).
  { unfold resolve, get_or_create_user. rewrite get_user_healthy by exact Hg.
    rewrite Hs, Hq1. exact E. }
  assert (Hb : 0 < balance u) by (simpl; unfold config.default_free_requests; lia).
  pose proof (complete_answered env message content rest Hp) as Hc.
  destruct (debit_one (conn_update env) (from_user_id message) (tbl ++ [u]) u Hu Hrows Hb)
    as (Hd & _).
  assert (Hd' : debit env message (tbl ++ [u])
                = (map (update_row (current_timestamp (conn_update env))
                                   (from_user_id message) (-1)) (tbl ++ [u]), inr true)).
  { unfold debit. rewrite Hq2. exact Hd. }
  rewrite (run_fulfilled env tbl message (tbl ++ [u]) _ u (strip content) H Hr Hb Hc Hd').
  simpl. split; [reflexivity|]. split; [reflexivity|].
  rewrite map_app. f_equal.
  - apply update_no_match. intros r0 Hr0. unfold update_where.
    destruct (Z.eqb_spec (tg_id r0) (from_user_id message)) as [Et|Et]; [|reflexivity].
    exfalso. apply select_user_None in Hs.
    assert (Hin : In r0 (rows_of (from_user_id message) tbl))
      by (apply rows_of_In; split; assumption).
    rewrite Hs in Hin. destruct Hin.
  - simpl. unfold update_row, update_where. simpl. rewrite Z.eqb_refl. reflexivity.
Qed.

Lemma first_message_of_new_user_witness :
  let env := mkEnv (mkConn None 200) (mkConn None 201) (mkConn None 202)
                   (fun t => t) (fun t => t)
                   (fun _ _ => Responds [Some (lit " hello ")]) 55 in
  let r := run env [] (mkMessage 1 9 (lit "hi")) in
  outcomes (calls (fst r)) = [Fulfilled (lit "hello") 2]
  /\ users (fst r) = [mkUser 9 None None None 2 1 201 202].
Proof.
  intros env r.
  destruct (first_message_of_new_user env [] (mkMessage 1 9 (lit "hi"))
              (lit " hello ") []
              (conj eq_refl (conj eq_refl eq_refl))
              (conj (fun t => eq_refl) (fun t => eq_refl))
              eq_refl eq_refl eq_refl)
    as (_ & Ho & Hu).
  split; [exact Ho | exact Hu].
Defined.

(** X19.  A response whose first choice has a content made of whitespace
    only is a success to the handler: it debits the request and tells the
    user Fulfilled with an empty text. *)
Theorem blank_completion_is_charged
        (env : Env) (tbl : users_table) (message : Message)
        (tbl1 tbl2 : users_table) (user : UserRow)
        (content : str) (rest : list (option str)) :
  truthy (strip (text message)) = true ->
  resolve env tbl message = (tbl1, inr user) ->
  0 < balance user ->
  openai_create env (strip (text message)) 1000 = Responds (Some content :: rest) ->
  forallb isspace content = true ->
  debit env message tbl1 = (tbl2, inr true) ->
  let r := run env tbl message in
  outcomes (calls (fst r)) = [Fulfilled [] (balance user - 1)]
  /\ filter is_debit (calls (fst r)) = [EnsureSufficientBalance (from_user_id message)]
  /\ users (fst r) = tbl2.
Proof.
  intros H Hr Hb Hp Hblank Hd r. subst r.
  pose proof (complete_answered env message content rest Hp) as Hc.
  apply strip_nil_iff in Hblank. rewrite Hblank in Hc.
  rewrite (run_fulfilled env tbl message tbl1 tbl2 user [] H Hr Hb Hc Hd).
  repeat split.
Qed.

Lemma blank_completion_is_charged_witness :
  let c := mkConn None 200 in
  let env := mkEnv c c c (fun t => t) (fun t => t)
                   (fun _ _ => Responds [Some (lit "   ")]) 55 in
  let r := run env [mkUser 7 None None None 3 0 100 100] (mkMessage 1 7 (lit "hi")) in
  outcomes (calls (fst r)) = [Fulfilled [] 2]
  /\ users (fst r) = [mkUser 7 None None None 2 1 100 200].
Proof.
  intros c env r.
  destruct (blank_completion_is_charged env [mkUser 7 None None None 3 0 100 100]
              (mkMessage 1 7 (lit "hi")) [mkUser 7 None None None 3 0 100 100]
              [mkUser 7 None None None 2 1 100 200]
              (mkUser 7 None None None 3 0 100 100) (lit "   ") []
              eq_refl eq_refl ltac:(simpl; lia) eq_refl eq_refl eq_refl)
    as (Ho & _ & Hu).
  split; [exact Ho | exact Hu].
Defined.

(** X20.  The prompt a run gives the gateway is the message text trimmed:
    it is never empty, it neither starts nor ends with whitespace, and it
    is sent only for a resolved account with a positive balance. *)
Theorem gateway_prompt_is_trimmed
        (env : Env) (tbl : users_table) (message : Message) (prompt : str) :
  In (GenerateResponse prompt) (calls (fst (run env tbl message))) ->
  prompt = strip (text message)
  /\ strip prompt = prompt
  /\ (exists c t, prompt = c :: t
                  /\ isspace c = false /\ isspace (last prompt c) = false)
  /\ exists tbl1 user, resolve env tbl message = (tbl1, inr user) /\ 0 < balance user.
Proof.
  intros Hin.
  destruct (gateway_called_only_when_funded env tbl message prompt Hin)
    as (Ht & -> & Hres).
  split; [reflexivity|]. split; [apply strip_idempotent|]. split; [|exact Hres].
  destruct (strip (text message)) as [|c t] eqn:E; [discriminate|].
  exists c, t. split; [reflexivity|]. apply (strip_ends (text message)). exact E.
Qed.

Lemma gateway_prompt_is_trimmed_witness :
  let c := mkConn None 200 in
  let env := mkEnv c c c (fun t => t) (fun t => t)
                   (fun _ _ => Responds [Some (lit "hello")]) 55 in
  lit "what now" = strip (lit "  what now  ").
Proof.
  intros c env.
  exact (proj1 (gateway_prompt_is_trimmed env [mkUser 7 None None None 3 0 100 100]
                  (mkMessage 1 7 (lit "  what now  ")) (lit "what now")
                  ltac:(simpl; tauto))).
Defined.


(** * The /start command *)

(** X21.  Whatever the transport does, [handle_start_command] makes its
    one call of [get_or_create_user] and then tries to send exactly one
    text: the registration-error text exactly when that call raised, and
    otherwise the welcome text with the balance of the row returned and the
    first name of the message.  If the transport delivers that text the
    handler returns; if the transport raises, the handler raises the same
    and nothing has been sent.  Either way the table is the one
    [get_or_create_user] left.  On a transport that delivers every call it
    is [handle_start_command]. *)
Theorem start_command_sends_one_text
        (tr : StartTransport) (env : Env) (message : StartMessage) (tbl : users_table) :
  let d := mkData (s_username message) (s_first_name message) (s_last_name message) in
  let resolved := get_or_create_user (conn_get env) (conn_create env) (before_create env)
                                      (s_from_user_id message) d tbl in
  let r := handle_start_command_via tr env message tbl in
  fst (fst r) = fst resolved
  /\ (exists reply,
        (reply = RegistrationError <-> exists e, snd resolved = inl e)
        /\ (forall user, snd resolved = inr user ->
              reply = Welcome (balance user) (s_first_name message))
        /\ (tr (StartSendMessage (s_chat_id message) reply) = None ->
            snd r = inr tt
            /\ snd (fst r) = [StartGetOrCreateUser (s_from_user_id message) d;
                              StartSendMessage (s_chat_id message) reply])
        /\ (forall err,
              tr (StartSendMessage (s_chat_id message) reply) = Some err ->
              snd r = inl (OtherException err)
              /\ snd (fst r) = [StartGetOrCreateUser (s_from_user_id message) d]))
  /\ ((forall call, tr call = None) -> r = handle_start_command env message tbl).
Proof.
  intros d resolved r. subst r. unfold handle_start_command_via, handle_start_command.
  fold d. fold resolved.
  destruct resolved as [tbl1 [e|user]] eqn:Hr.
  - destruct (get_or_create_user_raises _ _ _ _ _ _ _ _ Hr) as [msg ->]. simpl.
    split; [|split].
    + destruct (tr _); reflexivity.
    + exists RegistrationError. split; [split; [eauto | reflexivity]|].
      split; [discriminate|]. split.
      * intros ->. split; reflexivity.
      * intros err ->. split; reflexivity.
    + intros Hall. rewrite Hall. reflexivity.
  - simpl. split; [|split].
    + destruct (tr _); reflexivity.
    + exists (Welcome (balance user) (s_first_name message)).
      split; [split; [discriminate | intros [e He]; discriminate]|].
      split; [intros user' E; inversion E; reflexivity|]. split.
      * unfold _build_welcome_message. intros ->. split; reflexivity.
      * unfold _build_welcome_message. intros err ->. split; reflexivity.
    + intros Hall. rewrite Hall. reflexivity.
Qed.

Lemma start_command_sends_one_text_witness :
  let env := mkEnv (mkConn (Some (OperationFailed "database is locked")) 200)
                   (mkConn None 200) (mkConn None 200) (fun t => t) (fun t => t)
                   (fun _ _ => Responds []) 55 in
  let tr := fun _ : StartEvent => Some "Forbidden: bot was blocked by the user"%string in
  let r := handle_start_command_via tr env (mkStart 1 9 None (Some (lit "Ann")) None) [] in
  snd r = inl (OtherException "Forbidden: bot was blocked by the user")
  /\ snd (fst r) = [StartGetOrCreateUser 9 (mkData None (Some (lit "Ann")) None)].
Proof.
  intros env tr r.
  destruct (start_command_sends_one_text tr env (mkStart 1 9 None (Some (lit "Ann")) None) [])
    as (_ & (reply & Hreg & _ & _ & Hfail) & _).
  assert (E : reply = RegistrationError) by (apply Hreg; eexists; reflexivity).
  subst reply. exact (Hfail _ eq_refl).
Defined.

(** X22.  /start from a user who has no row, on healthy connections and
    with nobody else committing, appends one row with the names of the
    message, the starting balance and no requests counted, and welcomes the
    user with the starting balance. *)
Theorem start_command_registers_new_user
        (env : Env) (message : StartMessage) (tbl : users_table) :
  healthy (conn_get env) -> healthy (conn_create env) ->
  (forall t, before_create env t = t) ->
  select_user (s_from_user_id message) tbl = None ->
  handle_start_command env message tbl
  = (tbl ++ [mkUser (s_from_user_id message) (s_username message)
                    (s_first_name message) (s_last_name message)
                    config.default_free_requests 0
                    (current_timestamp (conn_create env))
                    (current_timestamp (conn_create env))],
     [StartGetOrCreateUser (s_from_user_id message)
        (mkData (s_username message) (s_first_name message) (s_last_name message));
      StartSendMessage (s_chat_id message)
        (Welcome config.default_free_requests (s_first_name message))],
     inr tt).
Proof.
  intros Hg Hc Hq Hs. unfold handle_start_command, get_or_create_user.
  rewrite get_user_healthy by exact Hg. rewrite Hs, Hq.
  destruct (create_user_absent (s_from_user_id message) (conn_create env)
              (mkData (s_username message) (s_first_name message) (s_last_name message))
              tbl Hc Hs) as (E & _).
  rewrite E. reflexivity.
Qed.

Lemma start_command_registers_new_user_witness :
  let c := mkConn None 200 in
  let env := mkEnv c c c (fun t => t) (fun t => t) (fun _ _ => Responds []) 55 in
  fst (fst (handle_start_command env
              (mkStart 1 9 (Some (lit "ann")) (Some (lit "Ann")) None) []))
  = [mkUser 9 (Some (lit "ann")) (Some (lit "Ann")) None 3 0 200 200].
Proof.
  intros c env.
  exact (f_equal (fun x => fst (fst x))
           (start_command_registers_new_user env
              (mkStart 1 9 (Some (lit "ann")) (Some (lit "Ann")) None) []
              eq_refl eq_refl (fun t => eq_refl) eq_refl)).
Defined.

Lemma start_command_leaves_known_user_aux env message tbl u :
  healthy (conn_get env) ->
  select_user (s_from_user_id message) tbl = Some u ->
  handle_start_command env message tbl
  = (tbl,
     [StartGetOrCreateUser (s_from_user_id message)
        (mkData (s_username message) (s_first_name message) (s_last_name message));
      StartSendMessage (s_chat_id message)
        (Welcome (balance u) (s_first_name message))],
     inr tt).
Proof.
  intros Hg Hs. unfold handle_start_command.
  rewrite (get_or_create_user_existing (s_from_user_id message) (conn_get env)
             (conn_create env) (before_create env) _ tbl u Hg Hs).
  reflexivity.
Qed.

(** X23.  /start from a user who has a row writes nothing, whatever names
    the message carries and whatever the balance is: the balance is not
    reset, the stored names are not updated, and the welcome text shows the
    balance of the row. *)
Theorem start_command_leaves_known_user
        (env : Env) (message : StartMessage) (tbl : users_table) (u : UserRow) :
  healthy (conn_get env) ->
  select_user (s_from_user_id message) tbl = Some u ->
  handle_start_command env message tbl
  = (tbl,
     [StartGetOrCreateUser (s_from_user_id message)
        (mkData (s_username message) (s_first_name message) (s_last_name message));
      StartSendMessage (s_chat_id message)
        (Welcome (balance u) (s_first_name message))],
     inr tt).
Proof.
  intros Hg Hs. apply start_command_leaves_known_user_aux; assumption.
Qed.

Lemma start_command_leaves_known_user_witness :
  let c := mkConn None 200 in
  let env := mkEnv c c c (fun t => t) (fun t => t) (fun _ _ => Responds []) 55 in
  let tbl := [mkUser 9 None None None 0 3 100 150] in
  handle_start_command env (mkStart 1 9 (Some (lit "ann")) (Some (lit "Ann")) None) tbl
  = (tbl,
     [StartGetOrCreateUser 9 (mkData (Some (lit "ann")) (Some (lit "Ann")) None);
      StartSendMessage 1 (Welcome 0 (Some (lit "Ann")))],
     inr tt).
Proof.
  intros c env tbl.
  exact (start_command_leaves_known_user env
           (mkStart 1 9 (Some (lit "ann")) (Some (lit "Ann")) None) tbl
           (mkUser 9 None None None 0 3 100 150) eq_refl eq_refl).
Defined.

(** X24.  A user whose first contact is a text message is stored without
    names, and stays so: a later /start, whatever names it carries, finds
    the row and writes nothing. *)
Theorem text_first_user_stays_nameless
        (env : Env) (tbl : users_table) (message : Message)
        (env' : Env) (start : StartMessage) :
  sound env -> quiet env ->
  truthy (strip (text message)) = true ->
  select_user (from_user_id message) tbl = None ->
  s_from_user_id start = from_user_id message ->
  healthy (conn_get env') ->
  let tbl1 := users (fst (run env tbl message)) in
  (exists u, rows_of (from_user_id message) tbl1 = [u]
             /\ username u = None /\ first_name u = None /\ last_name u = None)
  /\ fst (fst (handle_start_command env' start tbl1)) = tbl1.
Proof.
  intros (Hg & Hcr & Hu) (Hq1 & Hq2) H Hs Hid Hg' tbl1.
  destruct (create_user_absent (from_user_id message) (conn_create env) no_data tbl Hcr Hs)
    as (E & Hrows & _ & _).
  set (u := mkUser (from_user_id message) (d_username no_data) (d_first_name no_data)
                   (d_last_name no_data) config.default_free_requests 0
                   (current_timestamp (conn_create env))
                   (current_timestamp (conn_create env))) in *.
  assert (Hr : resolve env tbl message = (tbl ++ [u], inr u)).
  { unfold resolve, get_or_create_user. rewrite get_user_healthy by exact Hg.
    rewrite Hs, Hq1. exact E. }
  assert (Hrow : exists u1, rows_of (from_user_id message) tbl1 = [u1]
                            /\ username u1 = None /\ first_name u1 = None
                            /\ last_name u1 = None).
  { unfold tbl1.
    destruct (run_path env tbl message) as [H'|tbl' msg H' Hr'|tbl' user H' Hr' Hb
      |tbl' user msg H' Hr' Hb Hc|tbl' tbl2 user response H' Hr' Hb Hc Hd
      |tbl' tbl2 user response H' Hr' Hb Hc Hd|tbl' tbl2 user response msg H' Hr' Hb Hc Hd];
      try congruence; rewrite Hr in Hr'; inversion Hr'; subst tbl' user; simpl;
      try (exfalso; simpl in Hb; unfold config.default_free_requests in Hb; lia);
      try (rewrite Hq2; exists u; repeat split; exact Hrows).
    - destruct (debit_one (conn_update env) (from_user_id message) (tbl ++ [u]) u
                  Hu Hrows Hb) as (Hd1 & Hrows1 & _).
      unfold debit in Hd. rewrite Hq2, Hd1 in Hd. inversion Hd.
      eexists. split; [exact Hrows1|]. repeat split.
    - apply update_balance_false in Hd. subst tbl2. rewrite Hq2.
      exists u. repeat split; exact Hrows.
    - apply update_balance_raises in Hd. destruct Hd as [-> _]. rewrite Hq2.
      exists u. repeat split; exact Hrows. }
  split; [exact Hrow|].
  destruct Hrow as (u1 & Hrows1 & _).
  rewrite (start_command_leaves_known_user_aux env' start tbl1 u1 Hg').
  - reflexivity.
  - rewrite Hid. apply rows_of_select. exact Hrows1.
Qed.

Lemma text_first_user_stays_nameless_witness :
  let c := mkConn None 200 in
  let env := mkEnv c c c (fun t => t) (fun t => t)
                   (fun _ _ => Responds [Some (lit "hello")]) 55 in
  let tbl1 := users (fst (run env [] (mkMessage 1 9 (lit "hi")))) in
  fst (fst (handle_start_command env
              (mkStart 1 9 (Some (lit "ann")) (Some (lit "Ann")) None) tbl1))
  = tbl1.
Proof.
  intros c env tbl1.
  exact (proj2 (text_first_user_stays_nameless env [] (mkMessage 1 9 (lit "hi")) env
                  (mkStart 1 9 (Some (lit "ann")) (Some (lit "Ann")) None)
                  (conj eq_refl (conj eq_refl eq_refl))
                  (conj (fun t => eq_refl) (fun t => eq_refl))
                  eq_refl eq_refl eq_refl eq_refl)).
Defined.


(** * Configuration *)

Section Configuration.

Variable int : string -> option Z.
Variable env : config.environ.

(** The value [admin_id] gets is not 0 exactly when ADMIN_ID is set to a
    text that [int] reads as a number other than 0. *)
Lemma admin_id_usable :
  int "0" = Some 0 ->
  (config.admin_id (config._load_environment_variables int env) <> 0
   <-> exists v n, env "ADMIN_ID"%string = Some v /\ int v = Some n /\ n <> 0).
Proof.
  intros H0. unfold config._load_environment_variables, config.getenv_default. simpl.
  destruct (env "ADMIN_ID"%string) as [v|].
  - destruct (int v) as [n|] eqn:Ev.
    + split.
      * intros Hn. exists v, n. auto.
      * intros (v' & n' & Hv & Hn & Hne). inversion Hv; subst v'. congruence.
    + split; [intros Hn; contradiction|].
      intros (v' & n' & Hv & Hn & _). inversion Hv; subst v'. congruence.
  - rewrite H0. split; [intros Hn; contradiction|].
    intros (v' & n' & Hv & _). discriminate.
Qed.

Lemma missing_vars_nil s :
  config.missing_vars s = []
  <-> config.is_set (config.bot_token s) = true
      /\ config.is_set (config.openai_api_key s) = true
      /\ config.admin_id s <> 0.
Proof.
  unfold config.missing_vars.
  destruct (config.is_set (config.bot_token s));
    destruct (config.is_set (config.openai_api_key s));
    destruct (Z.eqb_spec (config.admin_id s) 0); simpl;
    split; try discriminate; try tauto; try (intros (A & B & C); congruence).
Qed.

Lemma Config_cases :
  (config.missing_vars (config._load_environment_variables int env) = []
   /\ config.Config int env = inr (config._load_environment_variables int env))
  \/ (config.missing_vars (config._load_environment_variables int env) <> []
      /\ config.Config int env
         = inl ("Missing required environment variables: "
                ++ String.concat ", "
                     (config.missing_vars (config._load_environment_variables int env)))%string).
Proof.
  unfold config.Config, config._validate_required_settings.
  destruct (config.missing_vars (config._load_environment_variables int env)) eqn:E.
  - left. split; reflexivity.
  - right. split; [discriminate | reflexivity].
Qed.

End Configuration.

(** X25.  [Config()] is constructed exactly when BOT_TOKEN and
    OPENAI_API_KEY are set to non-empty texts and ADMIN_ID is set to a text
    that [int] reads as a number other than 0; otherwise it raises
    ValueError.  An ADMIN_ID that is not set, that [int] rejects or that
    reads as 0 stops the start all alike.  The constructed object holds the
    two texts as they are in the environment and a non-zero admin_id. *)
Theorem Config_loads_iff (int : string -> option Z) (env : config.environ) :
  int "0"%string = Some 0 ->
  ((exists s, config.Config int env = inr s)
   <-> config.is_set (env "BOT_TOKEN"%string) = true
       /\ config.is_set (env "OPENAI_API_KEY"%string) = true
       /\ exists v n, env "ADMIN_ID"%string = Some v /\ int v = Some n /\ n <> 0)
  /\ (forall s, config.Config int env = inr s ->
        config.bot_token s = env "BOT_TOKEN"%string
        /\ config.openai_api_key s = env "OPENAI_API_KEY"%string
        /\ config.admin_id s <> 0).
Proof.
  intros H0.
  pose proof (admin_id_usable int env H0) as Hadmin.
  pose proof (missing_vars_nil (config._load_environment_variables int env)) as Hnil.
  destruct (Config_cases int env) as [[Hm E]|[Hm E]]; rewrite E.
  - split.
    + split; [intros _ | intros _; eexists; reflexivity].
      apply Hnil in Hm. destruct Hm as (A & B & C).
      split; [exact A|]. split; [exact B|]. apply Hadmin. exact C.
    + intros s Hs. inversion Hs; subst s.
      apply Hnil in Hm. destruct Hm as (_ & _ & C).
      repeat split. exact C.
  - split.
    + split; [intros [s Hs]; discriminate|].
      intros (A & B & C). exfalso. apply Hm. apply Hnil.
      split; [exact A|]. split; [exact B|]. apply Hadmin. exact C.
    + intros s Hs. discriminate.
Qed.

Lemma Config_loads_iff_witness :
  let int := fun s => if String.eqb s "0" then Some 0
                      else if String.eqb s "42" then Some 42 else None in
  let env := fun name => if String.eqb name "BOT_TOKEN" then Some "123:abc"%string
                         else if String.eqb name "OPENAI_API_KEY" then Some "sk-1"%string
                         else if String.eqb name "ADMIN_ID" then Some "42"%string
                         else None in
  exists s, config.Config int env = inr s.
Proof.
  intros int env.
  apply (proj1 (Config_loads_iff int env eq_refl)).
  split; [reflexivity|]. split; [reflexivity|].
  exists "42"%string, 42. repeat split. discriminate.
Defined.

(** X26.  When [Config()] raises, the text of the ValueError is "Missing
    required environment variables: " followed by the names of the
    unusable variables separated by ", ", in the order BOT_TOKEN,
    OPENAI_API_KEY, ADMIN_ID, each at most once and at least one of them:
    BOT_TOKEN and OPENAI_API_KEY when not set or empty, ADMIN_ID when not
    set to a text that [int] reads as a number other than 0. *)
Theorem Config_error_names_the_unusable
        (int : string -> option Z) (env : config.environ) (msg : string) :
  int "0"%string = Some 0 ->
  config.Config int env = inl msg ->
  exists names,
    msg = ("Missing required environment variables: " ++ String.concat ", " names)%string
    /\ names <> []
    /\ names = filter (fun name => existsb (String.eqb name) names)
                      ["BOT_TOKEN"; "OPENAI_API_KEY"; "ADMIN_ID"]%string
    /\ (In "BOT_TOKEN"%string names <-> config.is_set (env "BOT_TOKEN"%string) = false)
    /\ (In "OPENAI_API_KEY"%string names
        <-> config.is_set (env "OPENAI_API_KEY"%string) = false)
    /\ (In "ADMIN_ID"%string names
        <-> ~ exists v n, env "ADMIN_ID"%string = Some v /\ int v = Some n /\ n <> 0).
Proof.
  intros H0 Hc.
  pose proof (admin_id_usable int env H0) as Hadmin.
  destruct (Config_cases int env) as [[Hm E]|[Hm E]]; rewrite E in Hc; [discriminate|].
  inversion Hc as [Hmsg]. clear Hc.
  exists (config.missing_vars (config._load_environment_variables int env)).
  split; [reflexivity|]. split; [exact Hm|].
  revert Hadmin. clear Hmsg Hm E.
  unfold config.missing_vars.
  change (config.bot_token (config._load_environment_variables int env))
    with (env "BOT_TOKEN"%string).
  change (config.openai_api_key (config._load_environment_variables int env))
    with (env "OPENAI_API_KEY"%string).
  intros Hadmin.
  destruct (config.is_set (env "BOT_TOKEN"%string));
    destruct (config.is_set (env "OPENAI_API_KEY"%string));
    destruct (Z.eqb_spec (config.admin_id (config._load_environment_variables int env)) 0)
      as [Ez|Ez];
    (split; [reflexivity|]);
    simpl; repeat split; intros;
    try discriminate; try reflexivity;
    try (exfalso; intuition discriminate);
    try (intuition auto; fail);
    try (match goal with Hex : exists _, _ |- _ => apply Hadmin in Hex; contradiction end);
    try (match goal with Hn : ~ _ |- _ => exfalso; apply Hn; apply Hadmin; exact Ez end).
Qed.

Lemma Config_error_names_the_unusable_witness :
  let int := fun s => if String.eqb s "0" then Some 0
                      else if String.eqb s "42" then Some 42 else None in
  let env := fun name => if String.eqb name "OPENAI_API_KEY" then Some "sk-1"%string
                         else if String.eqb name "ADMIN_ID" then Some "abc"%string
                         else None in
  config.Config int env
  = inl "Missing required environment variables: BOT_TOKEN, ADMIN_ID"%string
  /\ exists names,
       "Missing required environment variables: BOT_TOKEN, ADMIN_ID"%string
       = ("Missing required environment variables: " ++ String.concat ", " names)%string
       /\ names <> [].
Proof.
  intros int env. split; [reflexivity|].
  destruct (Config_error_names_the_unusable int env
              "Missing required environment variables: BOT_TOKEN, ADMIN_ID"
              eq_refl eq_refl) as (names & Hm & Hne & _).
  exists names. split; assumption.
Defined.


(** * Racing requests *)

(** X27.  When the balance the run read was positive but, by the time the
    gateway has answered, other requests have left the user's one row with
    a balance of 0 or less, the debit on a healthy connection is refused:
    the run ends in SystemFailure, shows no response text and writes
    nothing, so the balance stays where the others left it and does not go
    below. *)
Theorem raced_request_is_refused
        (env : Env) (tbl : users_table) (message : Message)
        (tbl1 : users_table) (user : UserRow) (response : str) (u0 : UserRow) :
  truthy (strip (text message)) = true ->
  resolve env tbl message = (tbl1, inr user) ->
  0 < balance user ->
  complete env message = inr response ->
  healthy (conn_update env) ->
  rows_of (from_user_id message) (while_generating env tbl1) = [u0] ->
  balance u0 <= 0 ->
  let r := run env tbl message in
  outcomes (calls (fst r)) = [SystemFailure]
  /\ replies (calls (fst r)) = [Processing; ProcessingError]
  /\ users (fst r) = while_generating env tbl1
  /\ rows_of (from_user_id message) (users (fst r)) = [u0].
Proof.
  intros H Hr Hb Hc Hu Hrows H0 r. subst r.
  destruct (update_balance_rejected (conn_update env) (from_user_id message) (Z.opp 1)
              (while_generating env tbl1)) as [Hfst Hsnd].
  { intros r0 Hin Htg.
    assert (Hin' : In r0 (rows_of (from_user_id message) (while_generating env tbl1)))
      by (apply rows_of_In; split; assumption).
    rewrite Hrows in Hin'. destruct Hin' as [<-|[]]. lia. }
  assert (Hd : debit env message tbl1 = (while_generating env tbl1, inr false)).
  { unfold debit, ensure_sufficient_balance.
    rewrite (surjective_pairing (update_balance _ _ _ _)).
    rewrite Hfst, (Hsnd Hu). reflexivity. }
  rewrite (run_debit_refused env tbl message tbl1 _ user response H Hr Hb Hc Hd).
  simpl. repeat split. exact Hrows.
Qed.

Lemma raced_request_is_refused_witness :
  let c := mkConn None 200 in
  let env := mkEnv c c c (fun t => t)
                   (fun t => fst (ensure_sufficient_balance (mkConn None 150) 7 1 t))
                   (fun _ _ => Responds [Some (lit "hello")]) 55 in
  let r := run env [mkUser 7 None None None 1 0 100 100] (mkMessage 1 7 (lit "hi")) in
  outcomes (calls (fst r)) = [SystemFailure]
  /\ rows_of 7 (users (fst r)) = [mkUser 7 None None None 0 1 100 150].
Proof.
  intros c env r.
  destruct (raced_request_is_refused env [mkUser 7 None None None 1 0 100 100]
              (mkMessage 1 7 (lit "hi")) [mkUser 7 None None None 1 0 100 100]
              (mkUser 7 None None None 1 0 100 100) (lit "hello")
              (mkUser 7 None None None 0 1 100 150)
              eq_refl eq_refl ltac:(simpl; lia) eq_refl eq_refl eq_refl ltac:(simpl; lia))
    as (Ho & _ & _ & Hrows).
  split; [exact Ho | exact Hrows].
Defined.
